(** * Docker registry proxy worker: routing and namespace defaulting

    A shallow embedding of [src/index.ts] (a Cloudflare Worker that sits in
    front of Docker Hub) and the properties of its request router, its
    challenge responder, its token proxy, its generic proxy and its scope
    normaliser.

    Conventions of the embedding.
    - A JavaScript string is a [string] of bytes (its UTF-8 encoding).  The
      program only splits on [":"] and ["/"] and searches for ["/"]; these
      are ASCII, so the byte view and the UTF-16 view agree.
    - An [async] function is a value of the free monad [Promise]: it
      resolves, rejects with the exception thrown, or awaits one [fetch]
      and continues with the response.  The network itself is a parameter
      of the interpreter [run].
    - The platform classes ([URL], [URLSearchParams], [Headers], [Request],
      [Response]) are records with the operations the program calls.  The
      URL parser covers the part of the URL standard that acts on a
      serialised absolute URL ([scheme://host/path?query#fragment]); the
      parser drops the default port of [http] and [https]; the
      normalisations that are the identity on such a string (dot segments,
      percent-encoding of unsafe bytes, case folding of the host) and
      credentials in the authority are not modelled.  A query parameter is
      the bytes its percent-decoding gives.
    - A response body is its bytes; [text()] decodes them as UTF-8 and
      [new Response] of a string encodes them again. *)

From Stdlib Require Import String Ascii List Bool Arith ZArith.
Import ListNotations.

Local Open Scope list_scope.
Local Open Scope string_scope.

(** ** JavaScript strings and arrays *)

Module Js.

(** [s.includes(c)] for a one-character needle. *)
Fixpoint includes (c : ascii) (s : string) : bool :=
  match s with
  | EmptyString => false
  | String a s' => if Ascii.eqb a c then true else includes c s'
  end.

(** [s.split(sep)] for a one-character separator: never empty, the empty
    string gives one empty piece. *)
Fixpoint split (sep : ascii) (s : string) : list string :=
  match s with
  | EmptyString => [EmptyString]
  | String a s' =>
      if Ascii.eqb a sep then EmptyString :: split sep s'
      else match split sep s' with
           | [] => [String a EmptyString]
           | piece :: rest => String a piece :: rest
           end
  end.

(** [parts.join(sep)]. *)
Fixpoint join (sep : string) (parts : list string) : string :=
  match parts with
  | [] => EmptyString
  | [piece] => piece
  | piece :: rest => piece ++ sep ++ join sep rest
  end.

(** [parts.splice(start, 0, item)]: insertion, [start] clamped to the
    length of the array. *)
Definition splice_insert {A : Type} (parts : list A) (start : nat) (item : A)
  : list A :=
  (firstn start parts ++ item :: skipn start parts)%list.

(** [parts[i] = v].  JavaScript extends the array when [i] is past its
    end; the program assigns index 1 of an array it has just found to
    have length 3, and the model leaves a shorter array as it is. *)
Fixpoint set_index {A : Type} (parts : list A) (i : nat) (v : A) : list A :=
  match parts, i with
  | [], _ => []
  | _ :: rest, O => v :: rest
  | x :: rest, S j => x :: set_index rest j v
  end.

(** [s.startsWith(c)]. *)
Definition starts_with (c : ascii) (s : string) : bool :=
  match s with
  | String a _ => Ascii.eqb a c
  | EmptyString => false
  end.

End Js.

(** ** The URL standard, on serialised URLs *)

Module Url.

(** The pieces of [s] before and from the first byte that satisfies
    [stop]. *)
Fixpoint take_until (stop : ascii -> bool) (s : string) : string * string :=
  match s with
  | EmptyString => (EmptyString, EmptyString)
  | String a s' =>
      if stop a then (EmptyString, s)
      else let (taken, rest) := take_until stop s' in (String a taken, rest)
  end.

(** The pieces of [s] before and after the first [c]; no [c] leaves the
    second piece empty. *)
Definition break_at (c : ascii) (s : string) : string * string :=
  let (before, from) := take_until (Ascii.eqb c) s in
  match from with
  | String _ after => (before, after)
  | EmptyString => (before, EmptyString)
  end.

(** *** application/x-www-form-urlencoded *)

Definition hex_value (c : ascii) : option nat :=
  let n := nat_of_ascii c in
  (if (48 <=? n) && (n <=? 57) then Some (n - 48)
   else if (65 <=? n) && (n <=? 70) then Some (n - 55)
   else if (97 <=? n) && (n <=? 102) then Some (n - 87)
   else None)%nat.

Definition hex_digit (n : nat) : ascii :=
  (if n <? 10 then ascii_of_nat (48 + n) else ascii_of_nat (55 + n))%nat.

Fixpoint percent_decode (s : string) : string :=
  match s with
  | EmptyString => EmptyString
  | String a rest =>
      if Ascii.eqb a "%" then
        match rest with
        | String h (String l rest') =>
            match hex_value h, hex_value l with
            | Some hi, Some lo =>
                String (ascii_of_nat (16 * hi + lo)%nat) (percent_decode rest')
            | _, _ => String a (percent_decode rest)
            end
        | _ => String a (percent_decode rest)
        end
      else String a (percent_decode rest)
  end.

Fixpoint plus_to_space (s : string) : string :=
  match s with
  | EmptyString => EmptyString
  | String a rest =>
      String (if Ascii.eqb a "+" then " "%char else a) (plus_to_space rest)
  end.

Definition form_decode (s : string) : string :=
  percent_decode (plus_to_space s).

(** The bytes the serialiser leaves as they are: ASCII alphanumerics and
    [*-._]. *)
Definition form_safe (c : ascii) : bool :=
  let n := nat_of_ascii c in
  (((48 <=? n) && (n <=? 57)) || ((65 <=? n) && (n <=? 90))
   || ((97 <=? n) && (n <=? 122))
   || (n =? 42) || (n =? 45) || (n =? 46) || (n =? 95))%nat.

Definition byte_serialize (c : ascii) : string :=
  if Ascii.eqb c " " then "+"
  else if form_safe c then String c EmptyString
  else let n := nat_of_ascii c in
       String "%" (String (hex_digit (n / 16)%nat)
                          (String (hex_digit (n mod 16)%nat) EmptyString)).

Fixpoint form_encode (s : string) : string :=
  match s with
  | EmptyString => EmptyString
  | String a rest => byte_serialize a ++ form_encode rest
  end.

Definition parse_pair (piece : string) : string * string :=
  let (name, value) := break_at "=" piece in
  (form_decode name, form_decode value).

Definition nonempty (s : string) : bool :=
  match s with EmptyString => false | String _ _ => true end.

Definition urlencoded_parse (query : string) : list (string * string) :=
  map parse_pair (filter nonempty (Js.split "&" query)).

Definition serialize_pair (p : string * string) : string :=
  form_encode (fst p) ++ "=" ++ form_encode (snd p).

Definition urlencoded_serialize (params : list (string * string)) : string :=
  Js.join "&" (map serialize_pair params).

(** *** The URL record *)

(** [protocol] ends with [":"], [host] carries the port when there is
    one, [query] is the raw query without its ["?"] ([None] when the URL
    has no query). *)
Record URL : Type := mkURL {
  protocol : string;
  host : string;
  pathname : string;
  query : option string
}.

Definition host_end (c : ascii) : bool :=
  Ascii.eqb c "/" || Ascii.eqb c "?" || Ascii.eqb c "#".

Definition path_end (c : ascii) : bool :=
  Ascii.eqb c "?" || Ascii.eqb c "#".

Definition drop_slash (s : string) : string :=
  match s with
  | String a s' => if Ascii.eqb a "/" then s' else s
  | EmptyString => s
  end.

(** The port a scheme implies. *)
Definition default_port (protocol : string) : option string :=
  if String.eqb protocol "https:" then Some "443"
  else if String.eqb protocol "http:" then Some "80"
  else None.

(** The authority [h] without its port when the port is [port]: the name is
    what stands before the first [":"], or the bracketed address of an IPv6
    host. *)
Definition drop_port (port h : string) : string :=
  if Js.starts_with "[" h then
    let (inside, rest) := take_until (Ascii.eqb "]") h in
    match rest with
    | String _ after =>
        if String.eqb after (":" ++ port) then inside ++ "]" else h
    | EmptyString => h
    end
  else
    let (name, from) := take_until (Ascii.eqb ":") h in
    if String.eqb from (":" ++ port) then name else h.

Definition drop_default_port (protocol h : string) : string :=
  match default_port protocol with
  | Some port => drop_port port h
  | None => h
  end.

(** [new URL(href)] on a serialised absolute URL.  The port of the scheme
    is not kept in the host. *)
Definition new_URL (href : string) : URL :=
  let (scheme, after_scheme) := break_at ":" href in
  let authority := drop_slash (drop_slash after_scheme) in
  let (h, after_host) := take_until host_end authority in
  let (p, after_path) := take_until path_end after_host in
  {| protocol := scheme ++ ":";
     host := drop_default_port (scheme ++ ":") h;
     pathname := match p with EmptyString => "/" | _ => p end;
     query := match after_path with
              | String a q =>
                  if Ascii.eqb a "?"
                  then Some (fst (take_until (Ascii.eqb "#") q))
                  else None
              | EmptyString => None
              end |}.

(** [url.toString()], the same as [url.href]. *)
Definition toString (u : URL) : string :=
  protocol u ++ "//" ++ host u ++ pathname u
  ++ match query u with Some q => "?" ++ q | None => "" end.

(** [url.pathname = p]: the path always starts with ["/"]. *)
Definition set_pathname (u : URL) (p : string) : URL :=
  {| protocol := protocol u;
     host := host u;
     pathname := if Js.starts_with "/" p then p else "/" ++ p;
     query := query u |}.

(** *** URLSearchParams *)

Definition searchParams (u : URL) : list (string * string) :=
  match query u with
  | Some q => urlencoded_parse q
  | None => []
  end.

(** [params.get(name)]: the value of the first pair called [name], [None]
    for JavaScript's [null]. *)
Fixpoint params_get (params : list (string * string)) (name : string)
  : option string :=
  match params with
  | [] => None
  | (n, v) :: rest => if String.eqb n name then Some v else params_get rest name
  end.

Definition searchParams_get (u : URL) (name : string) : option string :=
  params_get (searchParams u) name.

(** [params.set(name, value)]: the first pair called [name] takes the
    value and the later ones go; with no such pair, one is appended. *)
Fixpoint params_set (params : list (string * string)) (name value : string)
  : list (string * string) :=
  match params with
  | [] => [(name, value)]
  | (n, v) :: rest =>
      if String.eqb n name
      then (n, value) :: filter (fun p => negb (String.eqb (fst p) name)) rest
      else (n, v) :: params_set rest name value
  end.

(** [url.searchParams.set(name, value)] writes the serialised list back
    as the query of the URL; an empty serialisation removes the query. *)
Definition searchParams_set (u : URL) (name value : string) : URL :=
  let serialized := urlencoded_serialize (params_set (searchParams u) name value) in
  {| protocol := protocol u;
     host := host u;
     pathname := pathname u;
     query := match serialized with
              | EmptyString => None
              | _ => Some serialized
              end |}.

End Url.

(** ** Fetch API: headers, requests, responses *)

(** The exceptions the program can raise or meet: a [TypeError] (a method
    called on [null], a body for a status that has none), a [RangeError] (a
    status no response can have) and the failure of a [fetch]. *)
Inductive Exception : Type :=
| TypeError
| RangeError
| NetworkError.

(** UTF-8 decoding as the Encoding standard does it, seen on bytes: a
    well-formed sequence stays, and each maximal ill-formed part becomes
    U+FFFD (the bytes EF BF BD). *)
Module Utf8.

Definition replacement : string :=
  String "239" (String "191" (String "189" EmptyString)).

Definition between (lo hi : nat) (c : ascii) : bool :=
  let n := nat_of_ascii c in ((lo <=? n) && (n <=? hi))%nat.

(** The range of the second byte after the lead byte [a] of a sequence of
    three or four bytes. *)
Definition second_lo (a : ascii) : nat :=
  let n := nat_of_ascii a in
  (if n =? 224 then 160 else if n =? 240 then 144 else 128)%nat.

Definition second_hi (a : ascii) : nat :=
  let n := nat_of_ascii a in
  (if n =? 237 then 159 else if n =? 244 then 143 else 191)%nat.

Fixpoint decode (s : string) : string :=
  match s with
  | EmptyString => EmptyString
  | String a r =>
      if between 0 127 a then String a (decode r)
      else if between 194 223 a then
        match r with
        | String b r2 =>
            if between 128 191 b then String a (String b (decode r2))
            else replacement ++ decode r
        | EmptyString => replacement
        end
      else if between 224 239 a then
        match r with
        | String b r2 =>
            if between (second_lo a) (second_hi a) b then
              match r2 with
              | String c r3 =>
                  if between 128 191 c
                  then String a (String b (String c (decode r3)))
                  else replacement ++ decode r2
              | EmptyString => replacement
              end
            else replacement ++ decode r
        | EmptyString => replacement
        end
      else if between 240 244 a then
        match r with
        | String b r2 =>
            if between (second_lo a) (second_hi a) b then
              match r2 with
              | String c r3 =>
                  if between 128 191 c then
                    match r3 with
                    | String d r4 =>
                        if between 128 191 d
                        then String a (String b (String c (String d (decode r4))))
                        else replacement ++ decode r3
                    | EmptyString => replacement
                    end
                  else replacement ++ decode r2
              | EmptyString => replacement
              end
            else replacement ++ decode r
        | EmptyString => replacement
        end
      else replacement ++ decode r
  end.

(** A byte order mark at the start is not part of the text. *)
Definition strip_BOM (s : string) : string :=
  match s with
  | String a (String b (String c rest)) =>
      if Ascii.eqb a "239" && Ascii.eqb b "187" && Ascii.eqb c "191"
      then rest else s
  | _ => s
  end.

(** The bytes of the string that decoding [s] gives. *)
Definition text (s : string) : string := decode (strip_BOM s).

Fixpoint is_ascii (s : string) : bool :=
  match s with
  | EmptyString => true
  | String a r => between 0 127 a && is_ascii r
  end.

End Utf8.

Module Headers.

Definition t : Type := list (string * string).

Definition lower_byte (c : ascii) : ascii :=
  let n := nat_of_ascii c in
  (if (65 <=? n) && (n <=? 90) then ascii_of_nat (n + 32) else c)%nat.

Fixpoint lower (s : string) : string :=
  match s with
  | EmptyString => EmptyString
  | String a rest => String (lower_byte a) (lower rest)
  end.

(** Header names compare without regard to case. *)
Definition same_name (a b : string) : bool := String.eqb (lower a) (lower b).

(** [new Headers()]. *)
Definition empty : t := [].

(** [headers.set(name, value)]. *)
Fixpoint set (hs : t) (name value : string) : t :=
  match hs with
  | [] => [(name, value)]
  | (n, v) :: rest =>
      if same_name n name
      then (n, value) :: filter (fun p => negb (same_name (fst p) name)) rest
      else (n, v) :: set rest name value
  end.

(** [headers.has(name)]. *)
Definition has (hs : t) (name : string) : bool :=
  existsb (fun p => same_name (fst p) name) hs.

End Headers.

(** The [redirect] option of a request. *)
Inductive RedirectMode : Type :=
| follow
| manual.

Module Request.

(** The fields of a [Request] the program reads or sets.  [url] is the
    serialised URL, as [request.url] is. *)
Record t : Type := mk {
  url : string;
  method : string;
  headers : Headers.t;
  redirect : RedirectMode;
  body : option string
}.

(** [new Request(input, { method, headers, redirect })] for a URL
    [input]: the request has no body. *)
Definition new (input : Url.URL) (method : string) (headers : Headers.t)
  (redirect : RedirectMode) : t :=
  {| url := Url.toString input;
     method := method;
     headers := headers;
     redirect := redirect;
     body := None |}.

(** The request [fetch(input)] builds from a bare URL: the defaults of
    [new Request(input)]. *)
Definition of_URL (input : Url.URL) : t :=
  new input "GET" Headers.empty follow.

End Request.

Module Response.

Record t : Type := mk {
  status : Z;
  statusText : string;
  headers : Headers.t;
  body : string
}.

(** A status that goes without body. *)
Definition null_body_status (status : Z) : bool :=
  ((status =? 101) || (status =? 204) || (status =? 205) || (status =? 304))%Z.

(** [new Response(body, { status, statusText, headers })] for a string
    [body]: a status outside 200..599 is a [RangeError], a status without
    body is a [TypeError], and a response without [Content-Type] gets the
    one of a string.  (The check of [statusText] against the reason phrase
    of HTTP is left out.) *)
Definition new (body : string) (status : Z) (statusText : string)
  (headers : Headers.t) : Exception + t :=
  if ((status <? 200) || (599 <? status))%Z then inl RangeError
  else if null_body_status status then inl TypeError
  else inr {| status := status;
              statusText := statusText;
              headers :=
                if Headers.has headers "Content-Type" then headers
                else (headers ++ [("Content-Type", "text/plain;charset=UTF-8")])%list;
              body := body |}.

(** [await response.text()]: the body, decoded as UTF-8. *)
Definition text (r : t) : string := Utf8.text (body r).

(** [Response.redirect(url, status)]: [url] is parsed and its
    serialisation becomes the [Location] header; the response has no
    body. *)
Definition redirect (url : string) (status : Z) : t :=
  {| status := status;
     statusText := "";
     headers := Headers.set Headers.empty "Location" (Url.toString (Url.new_URL url));
     body := "" |}.

End Response.

(** ** Asynchronous functions *)

Module Promise.

(** What an [async] function does: it returns, it throws, or it awaits a
    [fetch] and goes on with the response. *)
Inductive t (A : Type) : Type :=
| Resolve (a : A)
| Reject (e : Exception)
| Await (rq : Request.t) (k : Response.t -> t A).

Arguments Resolve {A} a.
Arguments Reject {A} e.
Arguments Await {A} rq k.

Fixpoint bind {A B : Type} (p : t A) (f : A -> t B) : t B :=
  match p with
  | Resolve a => f a
  | Reject e => Reject e
  | Await rq k => Await rq (fun r => bind (k r) f)
  end.

(** A synchronous call that may throw, inside an [async] function. *)
Definition of_result {A : Type} (r : Exception + A) : t A :=
  match r with
  | inl e => Reject e
  | inr a => Resolve a
  end.

(** A network answers a request with a response or fails. *)
Definition Network : Type := Request.t -> Exception + Response.t.

(** The outcome of a promise on a network: no exception is caught, so the
    first failure is the outcome. *)
Fixpoint run {A : Type} (net : Network) (p : t A) : Exception + A :=
  match p with
  | Resolve a => inr a
  | Reject e => inl e
  | Await rq k =>
      match net rq with
      | inl e => inl e
      | inr r => run net (k r)
      end
  end.

(** The requests a promise sends on a network, in order. *)
Fixpoint sent {A : Type} (net : Network) (p : t A) : list Request.t :=
  match p with
  | Resolve _ | Reject _ => []
  | Await rq k =>
      rq :: match net rq with
            | inl _ => []
            | inr r => sent net (k r)
            end
  end.

End Promise.

Notation "x <- p ;; q" := (Promise.bind p (fun x => q))
  (at level 61, p at next level, right associativity).

(** [fetch(request)] and [fetch(url)]. *)
Definition fetch (rq : Request.t) : Promise.t Response.t :=
  Promise.Await rq Promise.Resolve.

Definition fetch_URL (input : Url.URL) : Promise.t Response.t :=
  fetch (Request.of_URL input).

(** ** The worker *)

(** The double quote, for the challenge header. *)
Definition dquote : string := String "034"%char EmptyString.

Definition DOCKER_REGISTRY : string := "https://registry-1.docker.io".

(** [processScope(url)].  [searchParams.get] gives [null] when the URL has
    no [scope], and [null.split] throws.  [parts[1]] is read only after the
    length test has passed, where it is defined. *)
Definition processScope (url : Url.URL) : Exception + string :=
  match Url.searchParams_get url "scope" with
  | None => inl TypeError
  | Some scope =>
      let parts := Js.split ":" scope in
      if (length parts =? 3)%nat && negb (Js.includes "/" (nth 1 parts ""))
      then
        let parts := Js.set_index parts 1 ("library/" ++ nth 1 parts "") in
        inr (Js.join ":" parts)
      else inr scope
  end.

(** [challenge(upstream, host)]. *)
Definition challenge (upstream host : string) : Promise.t Response.t :=
  let url := Url.new_URL (upstream ++ "/v2/") in
  upstreamResponse <- fetch_URL url ;;
  let responseBody := Response.text upstreamResponse in
  let headers :=
    Headers.set Headers.empty "WWW-Authenticate"
      ("Bearer realm=" ++ dquote ++ "https://" ++ host ++ "/auth/token" ++ dquote
       ++ ",service=" ++ dquote ++ "docker-proxy-worker" ++ dquote) in
  Promise.of_result
    (Response.new responseBody (Response.status upstreamResponse)
       (Response.statusText upstreamResponse) headers).

(** [getToken(originUrl)]. *)
Definition getToken (originUrl : Url.URL) : Promise.t Response.t :=
  scope <- Promise.of_result (processScope originUrl) ;;
  let tokenUrl := Url.new_URL "https://auth.docker.io/token" in
  let tokenUrl := Url.searchParams_set tokenUrl "service" "registry.docker.io" in
  let tokenUrl := Url.searchParams_set tokenUrl "scope" scope in
  fetch_URL tokenUrl.

(** [getData(upstream, req)]. *)
Definition getData (upstream : string) (req : Request.t) : Promise.t Response.t :=
  let originUrl := Url.new_URL (Request.url req) in
  let targetUrl := Url.new_URL (upstream ++ Url.pathname originUrl) in
  let proxyRequest :=
    Request.new targetUrl (Request.method req) (Request.headers req) manual in
  fetch proxyRequest.

(** [handleRequest(request)]. *)
Definition handleRequest (request : Request.t) : Promise.t Response.t :=
  let url := Url.new_URL (Request.url request) in
  let host := Url.host url in
  let path := Url.pathname url in
  if String.eqb path "/" then
    Promise.Resolve (Response.redirect "https://www.docker.com" 301)
  else if String.eqb path "/v2/" then
    challenge DOCKER_REGISTRY host
  else if String.eqb path "/auth/token" then
    getToken url
  else
    let parts := Js.split "/" path in
    if (length parts =? 5)%nat then
      let parts := Js.splice_insert parts 2 "library" in
      let newUrl := Url.new_URL ("https://" ++ host) in
      let newUrl := Url.set_pathname newUrl (Js.join "/" parts) in
      Promise.Resolve (Response.redirect (Url.toString newUrl) 301)
    else
      getData DOCKER_REGISTRY request.

(** ** Definitions the statements use *)

(** The lines of [processScope] after the [scope] parameter has been read:
    what the function returns on a URL whose [scope] is the given string. *)
Definition normalizedScope (scope : string) : string :=
  let parts := Js.split ":" scope in
  if (length parts =? 3)%nat && negb (Js.includes "/" (nth 1 parts ""))
  then Js.join ":" (Js.set_index parts 1 ("library/" ++ nth 1 parts ""))
  else scope.

(** [s] has no byte that satisfies [stop]. *)
Fixpoint none_of (stop : ascii -> bool) (s : string) : bool :=
  match s with
  | EmptyString => true
  | String a rest => negb (stop a) && none_of stop rest
  end.

(** The bytes that structure a query: the pair separator, the name/value
    separator and the start of the fragment. *)
Definition query_delimiter (c : ascii) : bool :=
  Ascii.eqb c "&" || Ascii.eqb c "=" || Ascii.eqb c "#".

(** A URL of the token path whose [scope] parameter is the given string. *)
Definition withScope (scope : string) : Url.URL :=
  Url.new_URL ("https://mirror.example/auth/token?scope=" ++ Url.form_encode scope).

(** The request [getToken] sends for a normalised scope. *)
Definition tokenRequest (scope : string) : Request.t :=
  {| Request.url :=
       "https://auth.docker.io/token?service=registry.docker.io&scope="
       ++ Url.form_encode scope;
     Request.method := "GET";
     Request.headers := Headers.empty;
     Request.redirect := follow;
     Request.body := None |}.

(** *** The router *)

(** The parts of the request URL the router reads. *)
Definition urlOf (request : Request.t) : Url.URL :=
  Url.new_URL (Request.url request).

Definition hostOf (request : Request.t) : string := Url.host (urlOf request).

Definition pathOf (request : Request.t) : string := Url.pathname (urlOf request).

(** The five handling modes of the specification. *)
Inductive Mode : Type :=
| LandingRedirect
| AuthChallenge
| TokenProxy
| NamespaceRedirect
| GenericProxy.

(** The router of the specification, in its words: the first rule that the
    path meets, in the order root, [/v2/], [/auth/token], five pieces,
    anything else. *)
Definition selectMode (path : string) : Mode :=
  if String.eqb path "/" then LandingRedirect
  else if String.eqb path "/v2/" then AuthChallenge
  else if String.eqb path "/auth/token" then TokenProxy
  else if (length (Js.split "/" path) =? 5)%nat then NamespaceRedirect
  else GenericProxy.

(** A response that redirects for good: status 301, the target in
    [Location], nothing else. *)
Definition moved (location : string) : Response.t :=
  {| Response.status := 301;
     Response.statusText := "";
     Response.headers := [("Location", location)];
     Response.body := "" |}.

(** The path with [library] as the new third piece. *)
Definition libraryPath (path : string) : string :=
  Js.join "/" (Js.splice_insert (Js.split "/" path) 2 "library").

(** What each mode does with a request. *)
Definition dispatch (mode : Mode) (request : Request.t) : Promise.t Response.t :=
  match mode with
  | LandingRedirect => Promise.Resolve (moved "https://www.docker.com/")
  | AuthChallenge => challenge DOCKER_REGISTRY (hostOf request)
  | TokenProxy => getToken (urlOf request)
  | NamespaceRedirect =>
      Promise.Resolve
        (moved ("https://" ++ Url.drop_port "443" (hostOf request)
                ++ libraryPath (pathOf request)))
  | GenericProxy => getData DOCKER_REGISTRY request
  end.

(** The request [challenge] sends to the discovery endpoint. *)
Definition discoveryRequest : Request.t :=
  {| Request.url := "https://registry-1.docker.io/v2/";
     Request.method := "GET";
     Request.headers := Headers.empty;
     Request.redirect := follow;
     Request.body := None |}.

(** The value of the challenge [challenge] puts in [WWW-Authenticate]. *)
Definition challengeValue (host : string) : string :=
  "Bearer realm=" ++ dquote ++ "https://" ++ host ++ "/auth/token" ++ dquote
  ++ ",service=" ++ dquote ++ "docker-proxy-worker" ++ dquote.

(** The request [getData] sends for an inbound request. *)
Definition proxyRequestOf (request : Request.t) : Request.t :=
  {| Request.url := "https://registry-1.docker.io" ++ pathOf request;
     Request.method := Request.method request;
     Request.headers := Request.headers request;
     Request.redirect := manual;
     Request.body := None |}.

(** Sample requests and networks. *)
Definition get (url : string) : Request.t :=
  {| Request.url := url;
     Request.method := "GET";
     Request.headers := [("User-Agent", "docker/27.0")];
     Request.redirect := follow;
     Request.body := None |}.

Definition unauthorized : Response.t :=
  {| Response.status := 401;
     Response.statusText := "Unauthorized";
     Response.headers :=
       [("Content-Type", "application/json");
        ("Docker-Distribution-Api-Version", "registry/2.0")];
     Response.body := "{}" |}.

Definition answering (r : Response.t) : Promise.Network := fun _ => inr r.

(** An answer with a status no [Response] can be built with, and one whose
    body is Latin-1 (the byte E9), not UTF-8. *)
Definition status999 : Response.t :=
  {| Response.status := 999;
     Response.statusText := "";
     Response.headers := [];
     Response.body := "denied" |}.

Definition latin1 : Response.t :=
  {| Response.status := 401;
     Response.statusText := "Unauthorized";
     Response.headers := [];
     Response.body := String "233" EmptyString |}.

Definition headBlob : Request.t :=
  {| Request.url :=
       "https://mirror.example/v2/library/alpine/blobs/sha256:0a1b?expires=60";
     Request.method := "HEAD";
     Request.headers := [("Authorization", "Bearer t0k3n")];
     Request.redirect := follow;
     Request.body := None |}.

Definition deleteManifest : Request.t :=
  {| Request.url := "http://other.example:8080/v2/alpine/manifests/latest?x=1";
     Request.method := "DELETE";
     Request.headers := [("Authorization", "Bearer t0k3n")];
     Request.redirect := manual;
     Request.body := Some "payload" |}.

Definition postToken : Request.t :=
  {| Request.url :=
       "http://other.example:8080/auth/token?service=x&scope=repository:alpine:pull&account=me";
     Request.method := "POST";
     Request.headers := [("Authorization", "Basic dXNlcjpwYXNz")];
     Request.redirect := manual;
     Request.body := Some "grant_type=password" |}.

(** The number of bytes [c] in [s]. *)
Fixpoint count (c : ascii) (s : string) : nat :=
  match s with
  | EmptyString => O
  | String a rest => (if Ascii.eqb a c then 1 else 0) + count c rest
  end.

(** * Proofs *)

(** ** Splitting and joining *)

Section SplitJoin.

Variable sep : ascii.

Let sep_free (s : string) : Prop := Js.includes sep s = false.

Lemma split_not_nil (s : string) : Js.split sep s <> [].
Proof.
  destruct s as [|a s]; simpl; [discriminate|].
  destruct (Ascii.eqb a sep); [discriminate|].
  destruct (Js.split sep s); discriminate.
Qed.

Lemma split_pieces_sep_free (s : string) : Forall sep_free (Js.split sep s).
Proof.
  induction s as [|a s IH]; simpl.
  - constructor; [reflexivity | constructor].
  - destruct (Ascii.eqb a sep) eqn:Ea.
    + constructor; [reflexivity | exact IH].
    + destruct (Js.split sep s) as [|piece rest].
      * constructor; [|constructor]. unfold sep_free. simpl. now rewrite Ea.
      * inversion IH as [|? ? Hp Hr]; subst.
        constructor; [|exact Hr]. unfold sep_free in *. simpl. now rewrite Ea.
Qed.

Lemma join_split (s : string) : Js.join (String sep "") (Js.split sep s) = s.
Proof.
  induction s as [|a s IH]; simpl; [reflexivity|].
  destruct (Ascii.eqb a sep) eqn:Ea.
  - apply Ascii.eqb_eq in Ea. subst a.
    pose proof (split_not_nil s) as Hne.
    destruct (Js.split sep s) as [|piece rest]; [contradiction|].
    simpl in *. now rewrite IH.
  - destruct (Js.split sep s) as [|piece rest] eqn:Es.
    + now destruct (split_not_nil s).
    + destruct rest as [|next rest]; simpl in *; now rewrite <- IH.
Qed.

Lemma split_sep_free (s : string) : sep_free s -> Js.split sep s = [s].
Proof.
  unfold sep_free. induction s as [|a s IH]; simpl; [reflexivity|].
  destruct (Ascii.eqb a sep); [discriminate|].
  intros H. now rewrite (IH H).
Qed.

Lemma split_app_sep (s rest : string) :
  sep_free s ->
  Js.split sep (s ++ String sep rest) = s :: Js.split sep rest.
Proof.
  unfold sep_free. induction s as [|a s IH]; simpl.
  - now rewrite Ascii.eqb_refl.
  - destruct (Ascii.eqb a sep); [discriminate|].
    intros H. now rewrite (IH H).
Qed.

Lemma split_join (pieces : list string) :
  pieces <> [] -> Forall sep_free pieces ->
  Js.split sep (Js.join (String sep "") pieces) = pieces.
Proof.
  induction pieces as [|piece rest IH]; [congruence|].
  intros _ Hall. inversion Hall as [|? ? Hp Hr]; subst.
  destruct rest as [|next rest].
  - simpl. now apply split_sep_free.
  - change (Js.join (String sep "") (piece :: next :: rest))
      with (piece ++ String sep (Js.join (String sep "") (next :: rest))).
    rewrite (split_app_sep _ _ Hp). f_equal. apply IH; [discriminate | exact Hr].
Qed.

End SplitJoin.

(** ** The scope normaliser *)

Lemma processScope_unfold (url : Url.URL) :
  processScope url =
  match Url.searchParams_get url "scope" with
  | None => inl TypeError
  | Some scope => inr (normalizedScope scope)
  end.
Proof.
  unfold processScope, normalizedScope.
  destruct (Url.searchParams_get url "scope") as [scope|]; [|reflexivity].
  now destruct (_ && _).
Qed.

Lemma normalizedScope_bare (scope a b c : string) :
  Js.split ":" scope = [a; b; c] -> Js.includes "/" b = false ->
  normalizedScope scope = a ++ ":" ++ "library/" ++ b ++ ":" ++ c.
Proof.
  intros Hs Hb. unfold normalizedScope. rewrite Hs. simpl. now rewrite Hb.
Qed.

Lemma normalizedScope_other_length (scope : string) :
  length (Js.split ":" scope) <> 3 -> normalizedScope scope = scope.
Proof.
  intros H. unfold normalizedScope.
  apply Nat.eqb_neq in H. now rewrite H.
Qed.

Lemma normalizedScope_namespaced (scope b : string) :
  nth_error (Js.split ":" scope) 1 = Some b -> Js.includes "/" b = true ->
  normalizedScope scope = scope.
Proof.
  intros Hn Hb. unfold normalizedScope.
  rewrite (nth_error_nth _ _ "" Hn), Hb. simpl. now rewrite andb_false_r.
Qed.

Lemma normalizedScope_idempotent (scope : string) :
  normalizedScope (normalizedScope scope) = normalizedScope scope.
Proof.
  unfold normalizedScope at 2 3.
  destruct (_ && _) eqn:E; [|unfold normalizedScope; now rewrite E].
  apply andb_prop in E as [Hlen Hb].
  apply Nat.eqb_eq in Hlen. apply negb_true_iff in Hb.
  pose proof (split_pieces_sep_free ":" scope) as Hfree.
  destruct (Js.split ":" scope) as [|a [|b [|c [|d rest]]]]; try discriminate.
  simpl in Hb. simpl Js.set_index. simpl nth.
  apply normalizedScope_namespaced with (b := "library/" ++ b); [|reflexivity].
  rewrite split_join; [reflexivity | discriminate |].
  inversion Hfree as [|? ? Ha Hrest]; subst.
  inversion Hrest as [|? ? Hb' Hrest']; subst.
  repeat constructor; try assumption. exact (Forall_inv Hrest').
Qed.

(** ** Parsing and serialising URLs *)

Section TakeUntil.

Variable stop : ascii -> bool.

Lemma none_of_app (a b : string) :
  none_of stop (a ++ b) = none_of stop a && none_of stop b.
Proof.
  induction a as [|c a IH]; simpl; [reflexivity|].
  now rewrite IH, andb_assoc.
Qed.

Lemma none_of_split (sep : ascii) (s : string) :
  none_of stop s = true ->
  Forall (fun piece => none_of stop piece = true) (Js.split sep s).
Proof.
  induction s as [|a s IH]; simpl; intros H.
  - repeat constructor.
  - apply andb_prop in H as [Ha Hs]. specialize (IH Hs).
    destruct (Ascii.eqb a sep); [constructor; [reflexivity | exact IH]|].
    destruct (Js.split sep s) as [|piece rest].
    + repeat constructor. simpl. now rewrite Ha.
    + inversion IH as [|? ? Hp Hr]; subst.
      constructor; [|exact Hr]. simpl. now rewrite Ha, Hp.
Qed.

Lemma none_of_join (glue : string) (pieces : list string) :
  none_of stop glue = true ->
  Forall (fun piece => none_of stop piece = true) pieces ->
  none_of stop (Js.join glue pieces) = true.
Proof.
  intros Hg. induction pieces as [|piece rest IH]; intros Hall; [reflexivity|].
  inversion Hall as [|? ? Hp Hr]; subst.
  destruct rest as [|next rest]; [exact Hp|].
  change (Js.join glue (piece :: next :: rest))
    with (piece ++ glue ++ Js.join glue (next :: rest)).
  now rewrite !none_of_app, Hp, Hg, (IH Hr).
Qed.

(** What [take_until] takes has no stop byte, and what it leaves starts
    with one. *)
Lemma take_until_taken (s : string) :
  none_of stop (fst (Url.take_until stop s)) = true.
Proof.
  induction s as [|a s IH]; simpl; [reflexivity|].
  destruct (stop a) eqn:Ea; [reflexivity|].
  destruct (Url.take_until stop s) as [taken rest]. simpl in *. now rewrite Ea.
Qed.

Lemma take_until_left (s : string) :
  match snd (Url.take_until stop s) with
  | EmptyString => True
  | String a _ => stop a = true
  end.
Proof.
  induction s as [|a s IH]; simpl; [exact I|].
  destruct (stop a) eqn:Ea; [exact Ea|].
  now destruct (Url.take_until stop s) as [taken rest].
Qed.

Lemma take_until_all (s : string) :
  none_of stop s = true -> Url.take_until stop s = (s, "").
Proof.
  induction s as [|a s IH]; simpl; [reflexivity|].
  intros H. apply andb_prop in H as [Ha Hs].
  apply negb_true_iff in Ha. now rewrite Ha, (IH Hs).
Qed.

Lemma take_until_app (s rest : string) :
  none_of stop s = true ->
  match rest with EmptyString => True | String a _ => stop a = true end ->
  Url.take_until stop (s ++ rest) = (s, rest).
Proof.
  intros Hs Hrest. induction s as [|a s IH]; simpl.
  - destruct rest as [|b rest]; simpl; [reflexivity | now rewrite Hrest].
  - simpl in Hs. apply andb_prop in Hs as [Ha Hs].
    apply negb_true_iff in Ha. now rewrite Ha, (IH Hs).
Qed.

End TakeUntil.

Lemma none_of_weaken (stop stop' : ascii -> bool) (s : string) :
  (forall a, stop' a = true -> stop a = true) ->
  none_of stop s = true -> none_of stop' s = true.
Proof.
  intros Hsub. induction s as [|a s IH]; simpl; [reflexivity|].
  intros H. apply andb_prop in H as [Ha Hs]. rewrite (IH Hs), andb_true_r.
  apply negb_true_iff in Ha. apply negb_true_iff.
  destruct (stop' a) eqn:E; [|reflexivity]. now rewrite (Hsub a E) in Ha.
Qed.

Lemma none_of_taken (stop stop' : ascii -> bool) (s : string) :
  none_of stop s = true -> none_of stop (fst (Url.take_until stop' s)) = true.
Proof.
  induction s as [|a s IH]; simpl; [reflexivity|].
  intros H. apply andb_prop in H as [Ha Hs].
  destruct (stop' a); [reflexivity|].
  specialize (IH Hs). destruct (Url.take_until stop' s) as [taken rest].
  simpl in *. now rewrite Ha, IH.
Qed.

Lemma none_of_drop_port (stop : ascii -> bool) (port h : string) :
  stop "]"%char = false ->
  none_of stop h = true -> none_of stop (Url.drop_port port h) = true.
Proof.
  intros Hb Hh. unfold Url.drop_port.
  destruct (Js.starts_with "[" h).
  - pose proof (none_of_taken stop (Ascii.eqb "]") h Hh) as Ht.
    destruct (Url.take_until (Ascii.eqb "]") h) as [inside rest].
    destruct rest as [|c after]; [exact Hh|].
    destruct (String.eqb after (":" ++ port)); [|exact Hh].
    simpl in Ht. rewrite none_of_app, Ht. simpl. now rewrite Hb.
  - pose proof (none_of_taken stop (Ascii.eqb ":") h Hh) as Ht.
    destruct (Url.take_until (Ascii.eqb ":") h) as [name from].
    now destruct (String.eqb from (":" ++ port)).
Qed.

Lemma taken_starts_with (stop : ascii -> bool) (c : ascii) (s : string) :
  Js.starts_with c (fst (Url.take_until stop s))
  = match s with
    | String a _ => negb (stop a) && Ascii.eqb a c
    | EmptyString => false
    end.
Proof.
  destruct s as [|a s]; [reflexivity|].
  cbn [Url.take_until]. destruct (stop a); [reflexivity|].
  now destruct (Url.take_until stop s).
Qed.

(** Dropping the port twice is dropping it once. *)
Lemma drop_port_idempotent (port h : string) :
  Url.drop_port port (Url.drop_port port h) = Url.drop_port port h.
Proof.
  unfold Url.drop_port at 2.
  destruct (Js.starts_with "[" h) eqn:Hopen.
  - pose proof (take_until_taken (Ascii.eqb "]") h) as Ht.
    destruct (Url.take_until (Ascii.eqb "]") h) as [inside rest] eqn:Etake.
    assert (Hsame : Url.drop_port port h
                    = match rest with
                      | String _ after =>
                          if String.eqb after (":" ++ port) then inside ++ "]" else h
                      | EmptyString => h
                      end).
    { unfold Url.drop_port. now rewrite Hopen, Etake. }
    rewrite Hsame.
    destruct rest as [|c after]; [exact Hsame|].
    destruct (String.eqb after (":" ++ port)); [|exact Hsame].
    simpl in Ht. unfold Url.drop_port.
    assert (Hopen' : Js.starts_with "[" (inside ++ "]") = true).
    { pose proof (taken_starts_with (Ascii.eqb "]") "[" h) as Hst.
      rewrite Etake in Hst. cbn [fst] in Hst.
      destruct h as [|x h]; [discriminate|]. cbn [Js.starts_with] in Hopen.
      apply Ascii.eqb_eq in Hopen. subst x.
      destruct inside as [|y inside]; [discriminate Hst|].
      exact Hst. }
    rewrite Hopen', (take_until_app (Ascii.eqb "]") inside "]" Ht); reflexivity.
  - pose proof (take_until_taken (Ascii.eqb ":") h) as Ht.
    destruct (Url.take_until (Ascii.eqb ":") h) as [name from] eqn:Etake.
    assert (Hsame : Url.drop_port port h
                    = if String.eqb from (":" ++ port) then name else h).
    { unfold Url.drop_port. now rewrite Hopen, Etake. }
    rewrite Hsame.
    destruct (String.eqb from (":" ++ port)); [|exact Hsame].
    simpl in Ht. unfold Url.drop_port.
    assert (Hopen' : Js.starts_with "[" name = false).
    { pose proof (taken_starts_with (Ascii.eqb ":") "[" h) as Hst.
      rewrite Etake in Hst. cbn [fst] in Hst. rewrite Hst.
      destruct h as [|x h]; [reflexivity|]. cbn [Js.starts_with] in Hopen.
      now rewrite Hopen, andb_false_r. }
    now rewrite Hopen', (take_until_all (Ascii.eqb ":") name Ht).
Qed.

(** The host of a parsed URL has no ["/"], ["?"] or ["#"]. *)
Lemma new_URL_host (href : string) :
  none_of Url.host_end (Url.host (Url.new_URL href)) = true.
Proof.
  unfold Url.new_URL.
  destruct (Url.break_at ":" href) as [scheme after_scheme].
  pose proof (take_until_taken Url.host_end
                (Url.drop_slash (Url.drop_slash after_scheme))) as H.
  destruct (Url.take_until Url.host_end _) as [h after_host].
  destruct (Url.take_until Url.path_end after_host). simpl in *.
  unfold Url.drop_default_port.
  destruct (Url.default_port (scheme ++ ":")); [|exact H].
  now apply none_of_drop_port.
Qed.


(** The path of a parsed URL starts with ["/"] and has no ["?"] or ["#"]. *)
Lemma new_URL_pathname (href : string) :
  Js.starts_with "/" (Url.pathname (Url.new_URL href)) = true
  /\ none_of Url.path_end (Url.pathname (Url.new_URL href)) = true.
Proof.
  unfold Url.new_URL.
  destruct (Url.break_at ":" href) as [scheme after_scheme].
  pose proof (take_until_left Url.host_end
                (Url.drop_slash (Url.drop_slash after_scheme))) as Hleft.
  destruct (Url.take_until Url.host_end _) as [h after_host].
  pose proof (take_until_taken Url.path_end after_host) as Htaken.
  simpl in Hleft.
  destruct after_host as [|a rest]; [now split|].
  simpl in Htaken |- *.
  destruct (Url.path_end a) eqn:Ea; [now split|].
  destruct (Url.take_until Url.path_end rest) as [p after_path].
  simpl in *. split; [|exact Htaken].
  unfold Url.host_end in Hleft. unfold Url.path_end in Ea.
  destruct (Ascii.eqb a "/"); [reflexivity|].
  simpl in Hleft. congruence.
Qed.

(** Parsing the serialisation of an [https] URL without query gives the
    URL back. *)
Lemma new_URL_https (h p : string) :
  none_of Url.host_end h = true ->
  Js.starts_with "/" p = true ->
  none_of Url.path_end p = true ->
  Url.new_URL ("https://" ++ h ++ p)
  = Url.mkURL "https:" (Url.drop_port "443" h) p None.
Proof.
  intros Hh Hs Hp.
  change (Url.new_URL ("https://" ++ h ++ p))
    with (let (h', after_host) := Url.take_until Url.host_end (h ++ p) in
          let (p', after_path) := Url.take_until Url.path_end after_host in
          Url.mkURL "https:" (Url.drop_port "443" h')
            match p' with EmptyString => "/" | _ => p' end
            match after_path with
            | String a q =>
                if Ascii.eqb a "?"
                then Some (fst (Url.take_until (Ascii.eqb "#") q))
                else None
            | EmptyString => None
            end).
  rewrite (take_until_app Url.host_end h p Hh).
  - rewrite (take_until_all Url.path_end p Hp).
    destruct p; [discriminate | reflexivity].
  - destruct p as [|a p]; [exact I|].
    simpl in Hs. apply Ascii.eqb_eq in Hs. now subst a.
Qed.

Lemma new_URL_https_host (h : string) :
  none_of Url.host_end h = true ->
  Url.new_URL ("https://" ++ h) = Url.mkURL "https:" (Url.drop_port "443" h) "/" None.
Proof.
  intros Hh.
  change (Url.new_URL ("https://" ++ h))
    with (let (h', after_host) := Url.take_until Url.host_end h in
          let (p', after_path) := Url.take_until Url.path_end after_host in
          Url.mkURL "https:" (Url.drop_port "443" h')
            match p' with EmptyString => "/" | _ => p' end
            match after_path with
            | String a q =>
                if Ascii.eqb a "?"
                then Some (fst (Url.take_until (Ascii.eqb "#") q))
                else None
            | EmptyString => None
            end).
  now rewrite (take_until_all Url.host_end h Hh).
Qed.

(** ** Form encoding round trip *)

Lemma plus_to_space_app (a b : string) :
  Url.plus_to_space (a ++ b) = Url.plus_to_space a ++ Url.plus_to_space b.
Proof.
  induction a as [|c a IH]; simpl; [reflexivity | now rewrite IH].
Qed.

Lemma percent_decode_byte (c : ascii) (rest : string) :
  Url.percent_decode (Url.plus_to_space (Url.byte_serialize c) ++ rest)
  = String c (Url.percent_decode rest).
Proof.
  destruct c as [[] [] [] [] [] [] [] []]; reflexivity.
Qed.

Lemma byte_serialize_plain (c : ascii) :
  none_of query_delimiter (Url.byte_serialize c) = true.
Proof.
  destruct c as [[] [] [] [] [] [] [] []]; reflexivity.
Qed.

Lemma form_decode_encode (s : string) : Url.form_decode (Url.form_encode s) = s.
Proof.
  unfold Url.form_decode. induction s as [|c s IH]; simpl; [reflexivity|].
  now rewrite plus_to_space_app, percent_decode_byte, IH.
Qed.

Lemma form_encode_plain (s : string) :
  none_of query_delimiter (Url.form_encode s) = true.
Proof.
  induction s as [|c s IH]; simpl; [reflexivity|].
  now rewrite none_of_app, byte_serialize_plain, IH.
Qed.

Lemma parse_serialize_pair (p : string * string) :
  Url.parse_pair (Url.serialize_pair p) = p.
Proof.
  destruct p as [name value]. unfold Url.parse_pair, Url.serialize_pair, Url.break_at.
  simpl fst. simpl snd.
  rewrite (take_until_app (Ascii.eqb "=") (Url.form_encode name)
             ("=" ++ Url.form_encode value)).
  - simpl. now rewrite !form_decode_encode.
  - apply none_of_weaken with (stop := query_delimiter); [|apply form_encode_plain].
    intros a Ha. apply Ascii.eqb_eq in Ha. now subst a.
  - reflexivity.
Qed.

Lemma includes_none_of (c : ascii) (s : string) :
  none_of (fun a => Ascii.eqb a c) s = true -> Js.includes c s = false.
Proof.
  induction s as [|a s IH]; simpl; [reflexivity|].
  intros H. apply andb_prop in H as [Ha Hs].
  apply negb_true_iff in Ha. now rewrite Ha, (IH Hs).
Qed.

Lemma serialize_pair_amp_free (p : string * string) :
  Js.includes "&" (Url.serialize_pair p) = false.
Proof.
  assert (Hsub : forall a, Ascii.eqb a "&" = true -> query_delimiter a = true).
  { intros a Ha. unfold query_delimiter. now rewrite Ha. }
  apply includes_none_of. unfold Url.serialize_pair.
  rewrite !none_of_app.
  now rewrite !(none_of_weaken _ _ _ Hsub (form_encode_plain _)).
Qed.

(** Parsing a serialised parameter list gives the list back. *)
Lemma urlencoded_parse_serialize (params : list (string * string)) :
  Url.urlencoded_parse (Url.urlencoded_serialize params) = params.
Proof.
  unfold Url.urlencoded_parse, Url.urlencoded_serialize.
  destruct params as [|p params]; [reflexivity|].
  rewrite split_join.
  - set (l := p :: params). clearbody l. clear.
    induction l as [|q l IH]; [reflexivity|].
    simpl map at 1. simpl filter.
    replace (Url.nonempty (Url.serialize_pair q)) with true.
    + simpl. now rewrite parse_serialize_pair, IH.
    + unfold Url.serialize_pair. now destruct (Url.form_encode (fst q)).
  - discriminate.
  - apply Forall_forall. intros piece Hin.
    apply in_map_iff in Hin as [q [<- _]]. apply serialize_pair_amp_free.
Qed.

(** Every string is the [scope] of some URL, so the statements about
    [processScope] below speak of every scope string. *)
Lemma withScope_get (scope : string) :
  Url.searchParams_get (withScope scope) "scope" = Some scope.
Proof.
  unfold Url.searchParams_get, Url.searchParams, withScope.
  change (Url.query
            (Url.new_URL
               ("https://mirror.example/auth/token?scope=" ++ Url.form_encode scope)))
    with (Some (fst (Url.take_until (Ascii.eqb "#")
                       (Url.urlencoded_serialize [("scope", scope)])))).
  rewrite (take_until_all (Ascii.eqb "#")).
  - simpl fst. rewrite urlencoded_parse_serialize. reflexivity.
  - change (Url.urlencoded_serialize [("scope", scope)])
      with ("scope=" ++ Url.form_encode scope).
    rewrite none_of_app. apply andb_true_intro. split; [reflexivity|].
    apply none_of_weaken with (stop := query_delimiter); [|apply form_encode_plain].
    intros a Ha. apply Ascii.eqb_eq in Ha. now subst a.
Qed.

Lemma processScope_withScope (scope : string) :
  processScope (withScope scope) = inr (normalizedScope scope).
Proof. now rewrite processScope_unfold, withScope_get. Qed.

(** ** The token proxy *)

Lemma getToken_scope (url : Url.URL) (scope : string) :
  Url.searchParams_get url "scope" = Some scope ->
  getToken url = fetch (tokenRequest (normalizedScope scope)).
Proof.
  intros H. unfold getToken. rewrite processScope_unfold, H. reflexivity.
Qed.

Lemma getToken_no_scope (url : Url.URL) :
  Url.searchParams_get url "scope" = None ->
  getToken url = Promise.Reject TypeError.
Proof.
  intros H. unfold getToken. now rewrite processScope_unfold, H.
Qed.

Lemma tokenRequest_URL (scope : string) :
  Url.new_URL (Request.url (tokenRequest scope))
  = Url.mkURL "https:" "auth.docker.io" "/token"
      (Some (Url.urlencoded_serialize
               [("service", "registry.docker.io"); ("scope", scope)])).
Proof.
  change (Url.new_URL (Request.url (tokenRequest scope)))
    with (Url.mkURL "https:" "auth.docker.io" "/token"
            (Some (fst (Url.take_until (Ascii.eqb "#")
               ("service=registry.docker.io&scope=" ++ Url.form_encode scope))))).
  do 2 f_equal.
  rewrite (take_until_all (Ascii.eqb "#")); [reflexivity|].
  rewrite none_of_app. apply andb_true_intro. split; [reflexivity|].
  apply none_of_weaken with (stop := query_delimiter); [|apply form_encode_plain].
  intros a Ha. apply Ascii.eqb_eq in Ha. now subst a.
Qed.

(** ** The router *)

Lemma append_empty_r (s : string) : s ++ "" = s.
Proof. induction s as [|a s IH]; simpl; [reflexivity | now rewrite IH]. Qed.

Lemma toString_https (h p : string) :
  Url.toString (Url.mkURL "https:" h p None) = "https://" ++ h ++ p.
Proof. unfold Url.toString. simpl. now rewrite append_empty_r. Qed.

(** Redirecting to the serialisation of an [https] URL without query puts
    that very string in [Location]. *)
Lemma redirect_https (h p : string) :
  none_of Url.host_end h = true ->
  Js.starts_with "/" p = true ->
  none_of Url.path_end p = true ->
  Response.redirect ("https://" ++ h ++ p) 301
  = moved ("https://" ++ Url.drop_port "443" h ++ p).
Proof.
  intros Hh Hs Hp. unfold Response.redirect, moved.
  now rewrite (new_URL_https h p Hh Hs Hp), toString_https.
Qed.

Lemma libraryPath_wf (path : string) :
  Js.starts_with "/" path = true ->
  none_of Url.path_end path = true ->
  length (Js.split "/" path) = 5 ->
  Js.starts_with "/" (libraryPath path) = true
  /\ none_of Url.path_end (libraryPath path) = true.
Proof.
  intros Hs Hp Hlen.
  pose proof (none_of_split Url.path_end "/" path Hp) as Hall.
  unfold libraryPath.
  destruct path as [|a path]; [discriminate|].
  simpl in Hs. apply Ascii.eqb_eq in Hs. subst a.
  simpl in Hlen, Hall |- *.
  destruct (Js.split "/" path) as [|p1 [|p2 [|p3 [|p4 [|p5 rest]]]]];
    try discriminate.
  split; [reflexivity|].
  apply none_of_join; [reflexivity|].
  repeat match goal with
         | H : Forall _ (_ :: _) |- _ =>
             let Hx := fresh "Hx" in
             let Hr := fresh "Hr" in
             inversion H as [|? ? Hx Hr]; subst; clear H
         end.
  unfold Js.splice_insert. simpl. repeat constructor; assumption.
Qed.

Lemma five_pieces_not_fixed (path : string) :
  length (Js.split "/" path) = 5 ->
  String.eqb path "/" = false /\ String.eqb path "/v2/" = false
  /\ String.eqb path "/auth/token" = false.
Proof.
  intros H. repeat split; apply String.eqb_neq; intros ->; discriminate.
Qed.

Lemma namespace_redirect_response (request : Request.t) :
  Response.redirect
    (Url.toString
       (Url.set_pathname (Url.new_URL ("https://" ++ hostOf request))
          (libraryPath (pathOf request)))) 301
  = moved ("https://" ++ Url.drop_port "443" (hostOf request)
           ++ libraryPath (pathOf request))
  \/ length (Js.split "/" (pathOf request)) <> 5.
Proof.
  destruct (Nat.eq_dec (length (Js.split "/" (pathOf request))) 5) as [Hlen|Hlen];
    [left | now right].
  destruct (new_URL_pathname (Request.url request)) as [Hs Hp].
  destruct (libraryPath_wf (pathOf request) Hs Hp Hlen) as [Hs' Hp'].
  pose proof (new_URL_host (Request.url request)) as Hh.
  fold (urlOf request) in Hh. fold (hostOf request) in Hh.
  rewrite (new_URL_https_host _ Hh). unfold Url.set_pathname.
  cbn [Url.protocol Url.host Url.pathname Url.query].
  rewrite Hs', toString_https, redirect_https, drop_port_idempotent;
    [reflexivity | now apply none_of_drop_port | exact Hs' | exact Hp'].
Qed.

Lemma landing_response :
  Response.redirect "https://www.docker.com" 301 = moved "https://www.docker.com/".
Proof. reflexivity. Qed.

(** The router does what the mode of the path says. *)
Lemma handleRequest_dispatch (request : Request.t) :
  handleRequest request = dispatch (selectMode (pathOf request)) request.
Proof.
  unfold handleRequest, selectMode.
  fold (urlOf request). fold (pathOf request). fold (hostOf request).
  destruct (String.eqb (pathOf request) "/"); [reflexivity|].
  destruct (String.eqb (pathOf request) "/v2/"); [reflexivity|].
  destruct (String.eqb (pathOf request) "/auth/token"); [reflexivity|].
  destruct (Nat.eqb_spec (length (Js.split "/" (pathOf request))) 5) as [Hlen|Hlen];
    [|reflexivity].
  simpl. f_equal.
  destruct (namespace_redirect_response request) as [H|H]; [exact H | contradiction].
Qed.

Lemma getData_request (request : Request.t) :
  getData DOCKER_REGISTRY request = fetch (proxyRequestOf request).
Proof.
  unfold getData, proxyRequestOf, Request.new. do 2 f_equal.
  destruct (new_URL_pathname (Request.url request)) as [Hs Hp].
  fold (urlOf request) in *. fold (pathOf request) in *.
  change (DOCKER_REGISTRY ++ pathOf request)
    with ("https://" ++ "registry-1.docker.io" ++ pathOf request).
  rewrite new_URL_https; [apply toString_https | reflexivity | exact Hs | exact Hp].
Qed.

Lemma run_fetch (net : Promise.Network) (rq : Request.t) :
  Promise.run net (fetch rq) = net rq.
Proof. simpl. now destruct (net rq). Qed.

Lemma sent_fetch (net : Promise.Network) (rq : Request.t) :
  Promise.sent net (fetch rq) = [rq].
Proof. simpl. now destruct (net rq). Qed.

Lemma challenge_await (host : string) :
  challenge DOCKER_REGISTRY host
  = Promise.Await discoveryRequest
      (fun r => Promise.of_result
         (Response.new (Response.text r) (Response.status r)
            (Response.statusText r) [("WWW-Authenticate", challengeValue host)])).
Proof. reflexivity. Qed.

Lemma decode_ascii (s : string) : Utf8.is_ascii s = true -> Utf8.decode s = s.
Proof.
  induction s as [|a s IH]; [reflexivity|].
  cbn [Utf8.is_ascii Utf8.decode]. intros H. apply andb_prop in H as [Ha Hs].
  now rewrite Ha, (IH Hs).
Qed.

Lemma text_ascii (s : string) : Utf8.is_ascii s = true -> Utf8.text s = s.
Proof.
  intros H. unfold Utf8.text.
  assert (Hbom : Utf8.strip_BOM s = s).
  { destruct s as [|a [|b [|c rest]]]; try reflexivity.
    cbn [Utf8.strip_BOM Utf8.is_ascii] in *. apply andb_prop in H as [Ha _].
    destruct (Ascii.eqb_spec a "239") as [->|_]; [discriminate Ha | reflexivity]. }
  rewrite Hbom. now apply decode_ascii.
Qed.

(** ** The properties of the worker *)




(** C2.  On a URL whose [scope] parameter is [scope]: when [scope] splits on
    [":"] into exactly three parts and the second has no ["/"], the
    normaliser returns the parts rejoined with [library/] put before the
    second; when the parts are not exactly three, or the second part has a
    ["/"], it returns [scope] as it is.  So [repository:ubuntu:pull] becomes
    [repository:library/ubuntu:pull], and
    [repository:library/ubuntu:pull] and [repository:someuser/repo:push]
    stay. *)
Theorem processScope_cases (url : Url.URL) (scope : string) :
  Url.searchParams_get url "scope" = Some scope ->
  (forall a b c,
      Js.split ":" scope = [a; b; c] -> Js.includes "/" b = false ->
      processScope url = inr (Js.join ":" [a; "library/" ++ b; c]))
  /\ (length (Js.split ":" scope) <> 3 -> processScope url = inr scope)
  /\ (forall b,
         nth_error (Js.split ":" scope) 1 = Some b -> Js.includes "/" b = true ->
         processScope url = inr scope)
  /\ (scope = "repository:ubuntu:pull" ->
      processScope url = inr "repository:library/ubuntu:pull")
  /\ (scope = "repository:library/ubuntu:pull" -> processScope url = inr scope)
  /\ (scope = "repository:someuser/repo:push" -> processScope url = inr scope).
Proof.
  intros Hget. rewrite processScope_unfold, Hget.
  repeat split.
  - intros a b c Hs Hb. f_equal. now apply normalizedScope_bare.
  - intros Hlen. f_equal. now apply normalizedScope_other_length.
  - intros b Hn Hb. f_equal. now apply normalizedScope_namespaced with (b := b).
  - now intros ->.
  - now intros ->.
  - now intros ->.
Qed.

Lemma processScope_cases_witness :
  processScope
    (Url.new_URL
       "https://mirror.example/auth/token?service=registry.docker.io&scope=repository%3Aubuntu%3Apull")
  = inr "repository:library/ubuntu:pull".
Proof.
  exact (proj1 (proj2 (proj2 (proj2
           (processScope_cases
              (Url.new_URL
                 "https://mirror.example/auth/token?service=registry.docker.io&scope=repository%3Aubuntu%3Apull")
              "repository:ubuntu:pull" eq_refl)))) eq_refl).
Defined.

(** C3.  The router takes the first of five rules that the path of the
    request meets: the path ["/"] gives a 301 to [https://www.docker.com]
    (whatever the method and the query are), the path ["/v2/"] goes to the
    challenge responder, the path ["/auth/token"] goes to the token proxy, a
    path of exactly five pieces gives the namespace redirect (a 301 to the
    path with [library] inserted, on the host of the request without a
    port 443), and any other path goes to the generic proxy for
    [https://registry-1.docker.io]. *)
Theorem handleRequest_priority (request : Request.t) :
  let path := pathOf request in
  (path = "/" ->
   handleRequest request = Promise.Resolve (moved "https://www.docker.com/"))
  /\ (path = "/v2/" ->
      handleRequest request = challenge "https://registry-1.docker.io" (hostOf request))
  /\ (path = "/auth/token" -> handleRequest request = getToken (urlOf request))
  /\ (path <> "/" -> path <> "/v2/" -> path <> "/auth/token" ->
      length (Js.split "/" path) = 5 ->
      handleRequest request
      = Promise.Resolve
          (moved ("https://" ++ Url.drop_port "443" (hostOf request)
                  ++ libraryPath path)))
  /\ (path <> "/" -> path <> "/v2/" -> path <> "/auth/token" ->
      length (Js.split "/" path) <> 5 ->
      handleRequest request = getData "https://registry-1.docker.io" request).
Proof.
  intros path. subst path. rewrite handleRequest_dispatch. unfold selectMode.
  repeat split.
  - now intros ->.
  - now intros ->.
  - now intros ->.
  - intros H1 H2 H3 Hlen.
    apply String.eqb_neq in H1, H2, H3. apply Nat.eqb_eq in Hlen.
    now rewrite H1, H2, H3, Hlen.
  - intros H1 H2 H3 Hlen.
    apply String.eqb_neq in H1, H2, H3. apply Nat.eqb_neq in Hlen.
    now rewrite H1, H2, H3, Hlen.
Qed.

Lemma handleRequest_priority_witness :
  handleRequest
    {| Request.url := "https://mirror.example/?utm=1";
       Request.method := "POST";
       Request.headers := [];
       Request.redirect := follow;
       Request.body := Some "x" |}
  = Promise.Resolve (moved "https://www.docker.com/").
Proof.
  exact (proj1 (handleRequest_priority
                  {| Request.url := "https://mirror.example/?utm=1";
                     Request.method := "POST";
                     Request.headers := [];
                     Request.redirect := follow;
                     Request.body := Some "x" |}) eq_refl).
Defined.

(** C4, as amended.  For a request to the path ["/v2/"], when the discovery
    endpoint of the upstream answers with a response whose status a
    response with a body can have (200 to 599, and not 204, 205 or 304), the
    worker answers with the same status, the same status text and the text
    of the same body, decoded as UTF-8 (the same bytes when the body is
    ASCII), and with exactly two headers: [WWW-Authenticate], whose value
    is the fixed challenge with the host of the request in its realm, and
    the [Content-Type] a response built from a string gets.  No header of
    the upstream response is kept. *)
Theorem challenge_response
  (request : Request.t) (net : Promise.Network) (upstreamResponse : Response.t) :
  pathOf request = "/v2/" ->
  net discoveryRequest = inr upstreamResponse ->
  (200 <= Response.status upstreamResponse <= 599)%Z ->
  Response.null_body_status (Response.status upstreamResponse) = false ->
  Promise.run net (handleRequest request)
  = inr {| Response.status := Response.status upstreamResponse;
           Response.statusText := Response.statusText upstreamResponse;
           Response.headers :=
             [("WWW-Authenticate",
               "Bearer realm=" ++ dquote ++ "https://" ++ hostOf request
               ++ "/auth/token" ++ dquote ++ ",service=" ++ dquote
               ++ "docker-proxy-worker" ++ dquote);
              ("Content-Type", "text/plain;charset=UTF-8")];
           Response.body := Utf8.text (Response.body upstreamResponse) |}
  /\ (Utf8.is_ascii (Response.body upstreamResponse) = true ->
      Utf8.text (Response.body upstreamResponse) = Response.body upstreamResponse).
Proof.
  intros Hpath Hnet [Hlo Hhi] Hnull. split; [|apply text_ascii].
  rewrite handleRequest_dispatch, Hpath.
  change (selectMode "/v2/") with AuthChallenge. simpl dispatch.
  rewrite challenge_await. simpl Promise.run. rewrite Hnet.
  unfold Response.new. rewrite Hnull.
  apply Z.ltb_ge in Hlo. apply Z.ltb_ge in Hhi. now rewrite Hlo, Hhi.
Qed.

Lemma challenge_response_witness :
  Promise.run (answering unauthorized)
    (handleRequest (get "https://mirror.example/v2/"))
  = inr {| Response.status := 401;
           Response.statusText := "Unauthorized";
           Response.headers :=
             [("WWW-Authenticate",
               "Bearer realm=" ++ dquote ++ "https://mirror.example/auth/token"
               ++ dquote ++ ",service=" ++ dquote ++ "docker-proxy-worker"
               ++ dquote);
              ("Content-Type", "text/plain;charset=UTF-8")];
           Response.body := "{}" |}.
Proof.
  refine (proj1 (challenge_response (get "https://mirror.example/v2/")
                   (answering unauthorized) unauthorized _ _ _ _));
    vm_compute; try reflexivity; split; discriminate.
Defined.

(** C4 as it was stated fails in three ways: the response has a second
    header, an upstream status outside 200..599 makes the handler fail, and
    a body that is not UTF-8 comes back changed. *)
Lemma challenge_response_not_as_stated :
  ~ (forall (request : Request.t) (net : Promise.Network) (upstream : Response.t),
        pathOf request = "/v2/" ->
        net discoveryRequest = inr upstream ->
        exists value : string,
          Promise.run net (handleRequest request)
          = inr {| Response.status := Response.status upstream;
                   Response.statusText := Response.statusText upstream;
                   Response.headers := [("WWW-Authenticate", value)];
                   Response.body := Response.body upstream |})
  /\ Promise.run (answering status999) (handleRequest (get "https://mirror.example/v2/"))
     = inl RangeError
  /\ (exists response : Response.t,
         Promise.run (answering latin1) (handleRequest (get "https://mirror.example/v2/"))
         = inr response
         /\ Response.body response = Utf8.replacement
         /\ Response.body response <> Response.body latin1).
Proof.
  split; [|split].
  - intros H.
    destruct (H (get "https://mirror.example/v2/") (answering unauthorized)
                unauthorized eq_refl eq_refl) as [value Hrun].
    vm_compute in Hrun. discriminate Hrun.
  - vm_compute. reflexivity.
  - eexists. split; [vm_compute; reflexivity|]. split; [reflexivity | discriminate].
Qed.

(** C5.  For a request to ["/auth/token"] whose URL has a [scope]
    parameter, the worker sends one request: to
    [https://auth.docker.io/token], with the query parameters [service],
    equal to [registry.docker.io], and [scope], equal to the normalised
    scope, and no other parameter; what the token service answers is what
    the worker answers. *)
Theorem token_request (request : Request.t) (scope : string) :
  pathOf request = "/auth/token" ->
  Url.searchParams_get (urlOf request) "scope" = Some scope ->
  let outbound := tokenRequest (normalizedScope scope) in
  processScope (urlOf request) = inr (normalizedScope scope)
  /\ handleRequest request = fetch outbound
  /\ (forall net : Promise.Network,
         Promise.sent net (handleRequest request) = [outbound]
         /\ Promise.run net (handleRequest request) = net outbound)
  /\ Url.protocol (urlOf outbound) = "https:"
  /\ Url.host (urlOf outbound) = "auth.docker.io"
  /\ Url.pathname (urlOf outbound) = "/token"
  /\ Url.searchParams (urlOf outbound)
     = [("service", "registry.docker.io"); ("scope", normalizedScope scope)].
Proof.
  intros Hpath Hget outbound.
  assert (Hfetch : handleRequest request = fetch outbound).
  { rewrite handleRequest_dispatch, Hpath. now apply getToken_scope. }
  split; [now rewrite processScope_unfold, Hget|].
  split; [exact Hfetch|].
  split; [intros net; rewrite Hfetch; split; [apply sent_fetch | apply run_fetch]|].
  unfold urlOf, outbound. rewrite tokenRequest_URL. unfold Url.searchParams.
  repeat split. cbv [Url.query]. apply urlencoded_parse_serialize.
Qed.

Lemma token_request_witness :
  handleRequest
    (get "https://mirror.example/auth/token?account=me&scope=repository%3Aalpine%3Apull&service=mirror")
  = fetch
      {| Request.url :=
           "https://auth.docker.io/token?service=registry.docker.io&scope=repository%3Alibrary%2Falpine%3Apull";
         Request.method := "GET";
         Request.headers := [];
         Request.redirect := follow;
         Request.body := None |}.
Proof.
  exact (proj1 (proj2
           (token_request
              (get "https://mirror.example/auth/token?account=me&scope=repository%3Aalpine%3Apull&service=mirror")
              "repository:alpine:pull" eq_refl eq_refl))).
Defined.

(** C6.  For a request that the router hands to the generic proxy, the
    worker sends one request: its URL is [https://registry-1.docker.io]
    followed by the path of the inbound request and nothing else (no query),
    its method and its headers are those of the inbound request, and its
    redirect mode is [manual]; what the upstream answers, a 3xx included,
    is what the worker answers. *)
Theorem generic_proxy (request : Request.t) :
  selectMode (pathOf request) = GenericProxy ->
  let outbound :=
    {| Request.url := "https://registry-1.docker.io" ++ pathOf request;
       Request.method := Request.method request;
       Request.headers := Request.headers request;
       Request.redirect := manual;
       Request.body := None |} in
  handleRequest request = getData DOCKER_REGISTRY request
  /\ getData DOCKER_REGISTRY request = fetch outbound
  /\ (forall net : Promise.Network,
         Promise.sent net (handleRequest request) = [outbound]
         /\ Promise.run net (handleRequest request) = net outbound)
  /\ urlOf outbound
     = Url.mkURL "https:" "registry-1.docker.io" (pathOf request) None.
Proof.
  intros Hmode outbound.
  assert (Hroute : handleRequest request = getData DOCKER_REGISTRY request).
  { now rewrite handleRequest_dispatch, Hmode. }
  split; [exact Hroute|].
  split; [apply getData_request|].
  split.
  - intros net. rewrite Hroute, getData_request.
    split; [apply sent_fetch | apply run_fetch].
  - destruct (new_URL_pathname (Request.url request)) as [Hs Hp].
    unfold urlOf at 1. unfold outbound. cbv [Request.url].
    change ("https://registry-1.docker.io" ++ pathOf request)
      with ("https://" ++ "registry-1.docker.io" ++ pathOf request).
    apply new_URL_https; [reflexivity | exact Hs | exact Hp].
Qed.

Lemma generic_proxy_witness :
  handleRequest headBlob
  = fetch
      {| Request.url := "https://registry-1.docker.io/v2/library/alpine/blobs/sha256:0a1b";
         Request.method := "HEAD";
         Request.headers := [("Authorization", "Bearer t0k3n")];
         Request.redirect := manual;
         Request.body := None |}.
Proof.
  exact (eq_trans (proj1 (generic_proxy headBlob eq_refl))
                  (proj1 (proj2 (generic_proxy headBlob eq_refl)))).
Defined.

(** C7.  The scope normaliser is idempotent: when it returns [once] on a
    URL, it returns [once] again on every URL whose [scope] is [once]. *)
Theorem processScope_idempotent (url url' : Url.URL) (once : string) :
  processScope url = inr once ->
  Url.searchParams_get url' "scope" = Some once ->
  processScope url' = inr once.
Proof.
  rewrite !processScope_unfold. intros Hfirst ->.
  destruct (Url.searchParams_get url "scope") as [scope|]; [|discriminate].
  injection Hfirst as <-. now rewrite normalizedScope_idempotent.
Qed.

Lemma processScope_idempotent_witness :
  processScope
    (Url.new_URL
       "https://mirror.example/auth/token?scope=repository%3Alibrary%2Fubuntu%3Apull")
  = inr "repository:library/ubuntu:pull".
Proof.
  exact (processScope_idempotent
           (Url.new_URL "https://mirror.example/auth/token?scope=repository:ubuntu:pull")
           (Url.new_URL
              "https://mirror.example/auth/token?scope=repository%3Alibrary%2Fubuntu%3Apull")
           "repository:library/ubuntu:pull" eq_refl eq_refl).
Defined.

(** C8.  For a request to ["/auth/token"] whose URL has no [scope]
    parameter, the worker fails with the [TypeError] of calling [split] on
    [null]: it sends no request and produces no response, on any network. *)
Theorem token_without_scope (request : Request.t) :
  pathOf request = "/auth/token" ->
  Url.searchParams_get (urlOf request) "scope" = None ->
  processScope (urlOf request) = inl TypeError
  /\ handleRequest request = Promise.Reject TypeError
  /\ (forall net : Promise.Network,
         Promise.sent net (handleRequest request) = []
         /\ Promise.run net (handleRequest request) = inl TypeError).
Proof.
  intros Hpath Hget.
  assert (Hreject : handleRequest request = Promise.Reject TypeError).
  { rewrite handleRequest_dispatch, Hpath. now apply getToken_no_scope. }
  split; [now rewrite processScope_unfold, Hget|].
  split; [exact Hreject|].
  intros net. now rewrite Hreject.
Qed.

Lemma token_without_scope_witness :
  handleRequest (get "https://mirror.example/auth/token?service=registry.docker.io")
  = Promise.Reject TypeError.
Proof.
  exact (proj1 (proj2
           (token_without_scope
              (get "https://mirror.example/auth/token?service=registry.docker.io")
              eq_refl eq_refl))).
Defined.

(** C9.  For requests to ["/auth/token"], only the [scope] parameter of the
    inbound request reaches the token service: two requests with the same
    [scope] are handled alike, whatever their methods, headers, bodies,
    hosts and other parameters are, and the one request the worker sends
    for a scope is a [GET] without headers and without body to the token
    URL of the normalised scope. *)
Theorem token_request_from_scope_only (request request' : Request.t) :
  pathOf request = "/auth/token" ->
  pathOf request' = "/auth/token" ->
  Url.searchParams_get (urlOf request) "scope"
  = Url.searchParams_get (urlOf request') "scope" ->
  handleRequest request = handleRequest request'
  /\ (forall net : Promise.Network,
         Promise.sent net (handleRequest request)
         = match Url.searchParams_get (urlOf request) "scope" with
           | Some scope =>
               [{| Request.url :=
                     "https://auth.docker.io/token?service=registry.docker.io&scope="
                     ++ Url.form_encode (normalizedScope scope);
                   Request.method := "GET";
                   Request.headers := [];
                   Request.redirect := follow;
                   Request.body := None |}]
           | None => []
           end).
Proof.
  intros Hpath Hpath' Hscope.
  rewrite !handleRequest_dispatch, Hpath, Hpath'.
  change (selectMode "/auth/token") with TokenProxy. simpl dispatch.
  destruct (Url.searchParams_get (urlOf request) "scope") as [scope|] eqn:Hget.
  - rewrite (getToken_scope _ _ Hget), (getToken_scope _ _ (eq_sym Hscope)).
    split; [reflexivity|]. intros net. apply sent_fetch.
  - rewrite (getToken_no_scope _ Hget), (getToken_no_scope _ (eq_sym Hscope)).
    split; reflexivity.
Qed.

Lemma token_request_from_scope_only_witness :
  handleRequest
    (get "https://mirror.example/auth/token?scope=repository%3Aalpine%3Apull")
  = handleRequest postToken
  /\ Promise.sent (answering unauthorized)
       (handleRequest
          (get "https://mirror.example/auth/token?scope=repository%3Aalpine%3Apull"))
     = [{| Request.url :=
             "https://auth.docker.io/token?service=registry.docker.io&scope=repository%3Alibrary%2Falpine%3Apull";
           Request.method := "GET";
           Request.headers := [];
           Request.redirect := follow;
           Request.body := None |}].
Proof.
  assert (H : pathOf (get "https://mirror.example/auth/token?scope=repository%3Aalpine%3Apull")
              = "/auth/token"
              /\ pathOf postToken = "/auth/token"
              /\ Url.searchParams_get
                   (urlOf (get "https://mirror.example/auth/token?scope=repository%3Aalpine%3Apull"))
                   "scope"
                 = Url.searchParams_get (urlOf postToken) "scope")
    by (vm_compute; repeat split; reflexivity).
  destruct H as [H1 [H2 H3]].
  destruct (token_request_from_scope_only _ _ H1 H2 H3) as [Hsame Hsent].
  split; [exact Hsame|].
  rewrite (Hsent (answering unauthorized)). vm_compute. reflexivity.
Defined.

(** C10.  The mode the router takes depends on the path of the request
    alone: two requests with the same path are handled in the same mode,
    the one the path selects, whatever their methods, headers, bodies,
    queries and hosts are. *)
Theorem mode_from_path_only (request request' : Request.t) :
  pathOf request = pathOf request' ->
  exists mode : Mode,
    mode = selectMode (pathOf request)
    /\ handleRequest request = dispatch mode request
    /\ handleRequest request' = dispatch mode request'.
Proof.
  intros Hpath. exists (selectMode (pathOf request)).
  split; [reflexivity|]. split; [apply handleRequest_dispatch|].
  rewrite Hpath. apply handleRequest_dispatch.
Qed.

Lemma mode_from_path_only_witness :
  exists mode : Mode,
    mode = NamespaceRedirect
    /\ handleRequest (get "https://mirror.example/v2/alpine/manifests/latest")
       = dispatch mode (get "https://mirror.example/v2/alpine/manifests/latest")
    /\ handleRequest deleteManifest = dispatch mode deleteManifest.
Proof.
  exact (mode_from_path_only
           (get "https://mirror.example/v2/alpine/manifests/latest")
           deleteManifest eq_refl).
Defined.

(** ** Further lemmas *)

Lemma split_length_count (sep : ascii) (s : string) :
  length (Js.split sep s) = S (count sep s).
Proof.
  induction s as [|a s IH]; simpl; [reflexivity|].
  destruct (Ascii.eqb a sep); simpl; [now rewrite IH|].
  destruct (Js.split sep s); simpl in *; congruence.
Qed.

Lemma includes_app (c : ascii) (a b : string) :
  Js.includes c (a ++ b) = Js.includes c a || Js.includes c b.
Proof.
  induction a as [|x a IH]; simpl; [reflexivity|].
  destruct (Ascii.eqb x c); [reflexivity | exact IH].
Qed.

Lemma Forall_splice_insert {A : Type} (P : A -> Prop) (l : list A) (n : nat) (x : A) :
  Forall P l -> P x -> Forall P (Js.splice_insert l n x).
Proof.
  intros Hl Hx. unfold Js.splice_insert. apply Forall_app. split.
  - revert n. induction Hl as [|y l Hy Hl IH]; intros [|n]; simpl; auto.
  - constructor; [exact Hx|].
    revert n. induction Hl as [|y l Hy Hl IH]; intros [|n]; simpl; auto.
Qed.

Lemma length_splice_insert {A : Type} (l : list A) (n : nat) (x : A) :
  length (Js.splice_insert l n x) = S (length l).
Proof.
  unfold Js.splice_insert. rewrite length_app. cbn [length].
  now rewrite Nat.add_succ_r, <- length_app, firstn_skipn.
Qed.

Lemma split_libraryPath (path : string) :
  Js.split "/" (libraryPath path) = Js.splice_insert (Js.split "/" path) 2 "library".
Proof.
  unfold libraryPath. apply split_join.
  - unfold Js.splice_insert. now destruct (firstn 2 (Js.split "/" path)).
  - apply Forall_splice_insert; [apply split_pieces_sep_free | reflexivity].
Qed.

Lemma libraryPath_generic (path : string) :
  length (Js.split "/" path) = 5 -> selectMode (libraryPath path) = GenericProxy.
Proof.
  intros Hlen.
  assert (Hsix : length (Js.split "/" (libraryPath path)) = 6).
  { now rewrite split_libraryPath, length_splice_insert, Hlen. }
  unfold selectMode.
  destruct (String.eqb_spec (libraryPath path) "/") as [E|_];
    [rewrite E in Hsix; discriminate|].
  destruct (String.eqb_spec (libraryPath path) "/v2/") as [E|_];
    [rewrite E in Hsix; discriminate|].
  destruct (String.eqb_spec (libraryPath path) "/auth/token") as [E|_];
    [rewrite E in Hsix; discriminate|].
  now rewrite Hsix.
Qed.

(** Parsing an [https] URL with a query. *)
Lemma new_URL_https_query (h p q : string) :
  none_of Url.host_end h = true ->
  Js.starts_with "/" p = true ->
  none_of Url.path_end p = true ->
  Url.new_URL ("https://" ++ h ++ p ++ "?" ++ q)
  = Url.mkURL "https:" (Url.drop_port "443" h) p
      (Some (fst (Url.take_until (Ascii.eqb "#") q))).
Proof.
  intros Hh Hs Hp.
  change (Url.new_URL ("https://" ++ h ++ p ++ "?" ++ q))
    with (let (h', after_host) := Url.take_until Url.host_end (h ++ p ++ "?" ++ q) in
          let (p', after_path) := Url.take_until Url.path_end after_host in
          Url.mkURL "https:" (Url.drop_port "443" h')
            match p' with EmptyString => "/" | _ => p' end
            match after_path with
            | String a q' =>
                if Ascii.eqb a "?"
                then Some (fst (Url.take_until (Ascii.eqb "#") q'))
                else None
            | EmptyString => None
            end).
  rewrite (take_until_app Url.host_end h (p ++ "?" ++ q) Hh).
  - rewrite (take_until_app Url.path_end p ("?" ++ q) Hp); [|reflexivity].
    destruct p; [discriminate | reflexivity].
  - destruct p as [|a p]; [discriminate|].
    simpl in Hs |- *. apply Ascii.eqb_eq in Hs. now subst a.
Qed.

Lemma params_get_first (before after : list (string * string)) (name value : string) :
  (forall p, In p before -> fst p <> name) ->
  Url.params_get (before ++ (name, value) :: after) name = Some value.
Proof.
  induction before as [|[n v] before IH]; intros Hfree; simpl.
  - now rewrite String.eqb_refl.
  - destruct (String.eqb_spec n name) as [E|_].
    + now destruct (Hfree (n, v) (or_introl eq_refl)).
    + apply IH. intros p Hin. apply Hfree. now right.
Qed.


Lemma challenge_sent (net : Promise.Network) (host : string) :
  Promise.sent net (challenge DOCKER_REGISTRY host) = [discoveryRequest].
Proof.
  rewrite challenge_await. simpl.
  destruct (net discoveryRequest) as [e|r]; [reflexivity|].
  now destruct (Response.new _ _ _ _).
Qed.




Lemma append_assoc_prefix (a b c : string) : a ++ b ++ c = (a ++ b) ++ c.
Proof. induction a as [|x a IH]; simpl; [reflexivity | now rewrite IH]. Qed.

(** ** Further properties of the worker *)

(** X1.  The five-piece test of the router counts slashes: a request takes
    the namespace redirect exactly when its path has four ["/"].  The three
    fixed paths have one or two, so the earlier rules never take such a
    path away. *)
Theorem namespace_redirect_iff_four_slashes (request : Request.t) :
  handleRequest request = dispatch (selectMode (pathOf request)) request
  /\ (selectMode (pathOf request) = NamespaceRedirect
      <-> count "/" (pathOf request) = 4).
Proof.
  split; [apply handleRequest_dispatch|].
  unfold selectMode.
  destruct (String.eqb_spec (pathOf request) "/") as [->|_];
    [split; discriminate|].
  destruct (String.eqb_spec (pathOf request) "/v2/") as [->|_];
    [split; discriminate|].
  destruct (String.eqb_spec (pathOf request) "/auth/token") as [->|_];
    [split; discriminate|].
  rewrite split_length_count.
  destruct (Nat.eqb_spec (S (count "/" (pathOf request))) 5) as [H|H]; split;
    try discriminate; try reflexivity; intros Hc.
  - now injection H.
  - now rewrite Hc in H.
Qed.

(** X2.  The namespace redirect does not loop: a request for the URL in
    the [Location] of the redirect is handed to the generic proxy, which
    fetches the rewritten path from the upstream registry with the method
    and headers of that request. *)
Theorem redirect_then_proxy (request follow : Request.t) :
  length (Js.split "/" (pathOf request)) = 5 ->
  Request.url follow
  = "https://" ++ Url.drop_port "443" (hostOf request)
    ++ libraryPath (pathOf request) ->
  handleRequest request = Promise.Resolve (moved (Request.url follow))
  /\ handleRequest follow
     = fetch {| Request.url :=
                  "https://registry-1.docker.io" ++ libraryPath (pathOf request);
                Request.method := Request.method follow;
                Request.headers := Request.headers follow;
                Request.redirect := manual;
                Request.body := None |}.
Proof.
  intros Hlen Hurl. split.
  - rewrite handleRequest_dispatch, Hurl. unfold selectMode.
    destruct (five_pieces_not_fixed _ Hlen) as [-> [-> ->]].
    apply Nat.eqb_eq in Hlen. now rewrite Hlen.
  - destruct (new_URL_pathname (Request.url request)) as [Hs Hp].
    destruct (libraryPath_wf (pathOf request) Hs Hp Hlen) as [Hs' Hp'].
    assert (Hpath : pathOf follow = libraryPath (pathOf request)).
    { pose proof (new_URL_host (Request.url request)) as Hh.
      fold (urlOf request) in Hh. fold (hostOf request) in Hh.
      apply (none_of_drop_port Url.host_end "443") in Hh; [|reflexivity].
      unfold pathOf at 1, urlOf at 1. rewrite Hurl.
      now rewrite (new_URL_https _ _ Hh Hs' Hp'). }
    rewrite handleRequest_dispatch, Hpath, (libraryPath_generic _ Hlen).
    simpl dispatch. rewrite getData_request. unfold proxyRequestOf.
    now rewrite Hpath.
Qed.

Lemma redirect_then_proxy_witness :
  handleRequest (get "http://mirror.example:443/v2/alpine/manifests/latest?x=1")
  = Promise.Resolve (moved "https://mirror.example/v2/library/alpine/manifests/latest")
  /\ handleRequest (get "https://mirror.example/v2/library/alpine/manifests/latest")
     = fetch {| Request.url :=
                  "https://registry-1.docker.io/v2/library/alpine/manifests/latest";
                Request.method := "GET";
                Request.headers := [("User-Agent", "docker/27.0")];
                Request.redirect := manual;
                Request.body := None |}.
Proof.
  exact (redirect_then_proxy
           (get "http://mirror.example:443/v2/alpine/manifests/latest?x=1")
           (get "https://mirror.example/v2/library/alpine/manifests/latest")
           eq_refl eq_refl).
Defined.

(** X3.  The path the namespace redirect sends the client to, split again,
    gives the pieces of the path of the request in their order with
    [library] as the new third piece: six pieces. *)
Theorem redirect_path_pieces (request : Request.t) :
  length (Js.split "/" (pathOf request)) = 5 ->
  exists location : string,
    handleRequest request = Promise.Resolve (moved location)
    /\ Js.split "/" (Url.pathname (Url.new_URL location))
       = Js.splice_insert (Js.split "/" (pathOf request)) 2 "library"
    /\ length (Js.split "/" (Url.pathname (Url.new_URL location))) = 6
    /\ nth_error (Js.split "/" (Url.pathname (Url.new_URL location))) 2
       = Some "library".
Proof.
  intros Hlen.
  exists ("https://" ++ Url.drop_port "443" (hostOf request)
          ++ libraryPath (pathOf request)).
  destruct (new_URL_pathname (Request.url request)) as [Hs Hp].
  destruct (libraryPath_wf (pathOf request) Hs Hp Hlen) as [Hs' Hp'].
  pose proof (new_URL_host (Request.url request)) as Hh.
  fold (urlOf request) in Hh. fold (hostOf request) in Hh.
  apply (none_of_drop_port Url.host_end "443") in Hh; [|reflexivity].
  rewrite (new_URL_https _ _ Hh Hs' Hp'). cbn [Url.pathname].
  rewrite split_libraryPath, length_splice_insert, Hlen.
  split; [|split; [reflexivity | split; [reflexivity|]]].
  - rewrite handleRequest_dispatch. unfold selectMode.
    destruct (five_pieces_not_fixed _ Hlen) as [-> [-> ->]].
    apply Nat.eqb_eq in Hlen. now rewrite Hlen.
  - destruct (Js.split "/" (pathOf request)) as [|p0 [|p1 rest]];
      try discriminate. reflexivity.
Qed.

Lemma redirect_path_pieces_witness :
  exists location : string,
    handleRequest (get "https://mirror.example/v2/alpine/manifests/latest")
    = Promise.Resolve (moved location)
    /\ Js.split "/" (Url.pathname (Url.new_URL location))
       = [""; "v2"; "library"; "alpine"; "manifests"; "latest"]
    /\ length (Js.split "/" (Url.pathname (Url.new_URL location))) = 6
    /\ nth_error (Js.split "/" (Url.pathname (Url.new_URL location))) 2
       = Some "library".
Proof.
  exact (redirect_path_pieces
           (get "https://mirror.example/v2/alpine/manifests/latest") eq_refl).
Defined.


(** X5.  The worker sends at most one request for an inbound request, and
    none at all when it answers with one of its two redirects. *)
Theorem outbound_requests (net : Promise.Network) (request : Request.t) :
  length (Promise.sent net (handleRequest request)) <= 1
  /\ (pathOf request = "/" \/ length (Js.split "/" (pathOf request)) = 5 ->
      Promise.sent net (handleRequest request) = []).
Proof.
  rewrite handleRequest_dispatch. split.
  - destruct (selectMode (pathOf request)); simpl dispatch.
    + simpl. auto.
    + rewrite challenge_sent. simpl. auto.
    + destruct (Url.searchParams_get (urlOf request) "scope") as [scope|] eqn:Hget.
      * rewrite (getToken_scope _ _ Hget), sent_fetch. simpl. auto.
      * rewrite (getToken_no_scope _ Hget). simpl. auto.
    + simpl. auto.
    + rewrite getData_request, sent_fetch. simpl. auto.
  - intros [->|Hlen]; [reflexivity|].
    unfold selectMode. destruct (five_pieces_not_fixed _ Hlen) as [-> [-> ->]].
    apply Nat.eqb_eq in Hlen. now rewrite Hlen.
Qed.

(** X6.  The challenge depends on the host of the request alone: requests
    to ["/v2/"] on the same host are handled alike, and the request to the
    discovery endpoint is always the same bare [GET], so no header of the
    client (its credentials, say) goes upstream. *)
Theorem challenge_from_host_only (request request' : Request.t) :
  pathOf request = "/v2/" ->
  pathOf request' = "/v2/" ->
  hostOf request = hostOf request' ->
  handleRequest request = handleRequest request'
  /\ (forall net : Promise.Network,
         Promise.sent net (handleRequest request)
         = [{| Request.url := "https://registry-1.docker.io/v2/";
               Request.method := "GET";
               Request.headers := [];
               Request.redirect := follow;
               Request.body := None |}]).
Proof.
  intros Hpath Hpath' Hhost.
  rewrite !handleRequest_dispatch, Hpath, Hpath'.
  change (selectMode "/v2/") with AuthChallenge. simpl dispatch.
  split; [now rewrite Hhost|].
  intros net. apply challenge_sent.
Qed.

Lemma challenge_from_host_only_witness :
  handleRequest (get "https://mirror.example/v2/")
  = handleRequest
      {| Request.url := "http://mirror.example/v2/?n=1";
         Request.method := "HEAD";
         Request.headers := [("Authorization", "Bearer t0k3n")];
         Request.redirect := manual;
         Request.body := Some "x" |}.
Proof.
  exact (proj1 (challenge_from_host_only
                  (get "https://mirror.example/v2/")
                  {| Request.url := "http://mirror.example/v2/?n=1";
                     Request.method := "HEAD";
                     Request.headers := [("Authorization", "Bearer t0k3n")];
                     Request.redirect := manual;
                     Request.body := Some "x" |}
                  eq_refl eq_refl eq_refl)).
Defined.

(** X7.  The generic proxy reads the path, the method and the headers of
    the inbound request and nothing else: requests that agree on these are
    handled alike, so the body, the query, the host and the scheme of the
    inbound request are not forwarded. *)
Theorem generic_proxy_inputs (request request' : Request.t) :
  selectMode (pathOf request) = GenericProxy ->
  pathOf request' = pathOf request ->
  Request.method request' = Request.method request ->
  Request.headers request' = Request.headers request ->
  handleRequest request' = handleRequest request
  /\ (forall (net : Promise.Network) (rq : Request.t),
         In rq (Promise.sent net (handleRequest request)) ->
         Request.body rq = None).
Proof.
  intros Hmode Hpath Hmethod Hheaders.
  rewrite !handleRequest_dispatch, Hpath, Hmode. simpl dispatch.
  rewrite !getData_request. unfold proxyRequestOf.
  rewrite Hpath, Hmethod, Hheaders. split; [reflexivity|].
  intros net rq. rewrite sent_fetch. now intros [<-|[]].
Qed.

Lemma generic_proxy_inputs_witness :
  handleRequest
    {| Request.url := "http://other.example:8080/v2/library/alpine/blobs/uploads/?digest=sha256:0a1b";
       Request.method := "PUT";
       Request.headers := [("Content-Type", "application/octet-stream")];
       Request.redirect := manual;
       Request.body := Some "layer bytes" |}
  = handleRequest
      {| Request.url := "https://mirror.example/v2/library/alpine/blobs/uploads/";
         Request.method := "PUT";
         Request.headers := [("Content-Type", "application/octet-stream")];
         Request.redirect := follow;
         Request.body := None |}.
Proof.
  exact (proj1 (generic_proxy_inputs
                  {| Request.url := "https://mirror.example/v2/library/alpine/blobs/uploads/";
                     Request.method := "PUT";
                     Request.headers := [("Content-Type", "application/octet-stream")];
                     Request.redirect := follow;
                     Request.body := None |}
                  {| Request.url := "http://other.example:8080/v2/library/alpine/blobs/uploads/?digest=sha256:0a1b";
                     Request.method := "PUT";
                     Request.headers := [("Content-Type", "application/octet-stream")];
                     Request.redirect := manual;
                     Request.body := Some "layer bytes" |}
                  eq_refl eq_refl eq_refl eq_refl)).
Defined.

(** X8.  The challenge and the token proxy fit together: every response
    the challenge responder builds names as realm the token path on the
    host of the request, and a request to that realm, whatever its query
    is, reaches the token proxy, which asks the token service for the
    normalisation of the scope it finds under the service
    [registry.docker.io]. *)
Theorem challenge_realm_reaches_token
  (request follow : Request.t) (query scope : string) :
  let realm := "https://" ++ hostOf request ++ "/auth/token" in
  Request.url follow = realm ++ "?" ++ query ->
  Url.searchParams_get (urlOf follow) "scope" = Some scope ->
  (forall (net : Promise.Network) (response : Response.t),
      Promise.run net (challenge DOCKER_REGISTRY (hostOf request)) = inr response ->
      In ("WWW-Authenticate",
          "Bearer realm=" ++ dquote ++ realm ++ dquote
          ++ ",service=" ++ dquote ++ "docker-proxy-worker" ++ dquote)
         (Response.headers response))
  /\ pathOf follow = "/auth/token"
  /\ handleRequest follow = fetch (tokenRequest (normalizedScope scope)).
Proof.
  intros realm Hurl Hget.
  assert (Hpath : pathOf follow = "/auth/token").
  { unfold pathOf, urlOf. rewrite Hurl. unfold realm.
    rewrite <- !append_assoc_prefix.
    now rewrite new_URL_https_query; [| apply new_URL_host | |]. }
  split; [|split; [exact Hpath|]].
  - intros net response. rewrite challenge_await. simpl Promise.run.
    destruct (net discoveryRequest) as [e|upstream]; [discriminate|].
    unfold Response.new.
    destruct (_ || _)%bool; [discriminate|].
    destruct (Response.null_body_status _); [discriminate|].
    intros H. injection H as <-. left. unfold challengeValue, realm.
    now rewrite <- !append_assoc_prefix.
  - rewrite handleRequest_dispatch, Hpath.
    change (selectMode "/auth/token") with TokenProxy.
    now apply getToken_scope.
Qed.

Lemma challenge_realm_reaches_token_witness :
  handleRequest
    (get "https://mirror.example/auth/token?service=docker-proxy-worker&scope=repository:alpine:pull")
  = fetch (tokenRequest "repository:library/alpine:pull").
Proof.
  refine (proj2 (proj2 (challenge_realm_reaches_token
                   (get "http://mirror.example/v2/")
                   (get "https://mirror.example/auth/token?service=docker-proxy-worker&scope=repository:alpine:pull")
                   "service=docker-proxy-worker&scope=repository:alpine:pull"
                   "repository:alpine:pull" _ _))); vm_compute; reflexivity.
Defined.

(** X9.  What the scope normaliser returns never has a bare repository
    name: when the result has three parts, its second part has a ["/"]. *)
Theorem processScope_result_namespaced (url : Url.URL) (out : string) :
  processScope url = inr out ->
  length (Js.split ":" out) = 3 ->
  Js.includes "/" (nth 1 (Js.split ":" out) "") = true.
Proof.
  rewrite processScope_unfold.
  destruct (Url.searchParams_get url "scope") as [scope|]; [|discriminate].
  intros H. injection H as <-. unfold normalizedScope.
  destruct (_ && _) eqn:E.
  - apply andb_prop in E as [Hlen _]. apply Nat.eqb_eq in Hlen.
    pose proof (split_pieces_sep_free ":" scope) as Hfree.
    destruct (Js.split ":" scope) as [|a [|b [|c [|d rest]]]]; try discriminate.
    change (Js.set_index [a; b; c] 1 ("library/" ++ nth 1 [a; b; c] ""))
      with [a; "library/" ++ b; c].
    intros _. rewrite split_join; [reflexivity | discriminate |].
    inversion Hfree as [|? ? Ha Hrest]; subst.
    inversion Hrest as [|? ? Hb Hrest']; subst.
    repeat constructor; try assumption. exact (Forall_inv Hrest').
  - intros Hlen. apply Nat.eqb_eq in Hlen. rewrite Hlen in E. simpl in E.
    now apply negb_false_iff in E.
Qed.

(** X10.  The scope normaliser touches the second part only: the result has
    as many parts as the scope, and every part but the second is the same
    (the resource type and the actions, for a scope of three parts). *)
Theorem processScope_keeps_other_parts (url : Url.URL) (scope out : string) :
  Url.searchParams_get url "scope" = Some scope ->
  processScope url = inr out ->
  length (Js.split ":" out) = length (Js.split ":" scope)
  /\ (forall i : nat,
         i <> 1 ->
         nth_error (Js.split ":" out) i = nth_error (Js.split ":" scope) i).
Proof.
  intros Hget. rewrite processScope_unfold, Hget. intros H. injection H as <-.
  unfold normalizedScope.
  destruct (_ && _) eqn:E; [|split; reflexivity].
  apply andb_prop in E as [Hlen _]. apply Nat.eqb_eq in Hlen.
  pose proof (split_pieces_sep_free ":" scope) as Hfree.
  destruct (Js.split ":" scope) as [|a [|b [|c [|d rest]]]]; try discriminate.
  change (Js.set_index [a; b; c] 1 ("library/" ++ nth 1 [a; b; c] ""))
    with [a; "library/" ++ b; c].
  rewrite split_join.
  - split; [reflexivity|]. intros [|[|i]] Hi; [reflexivity | contradiction | reflexivity].
  - discriminate.
  - inversion Hfree as [|? ? Ha Hrest]; subst.
    inversion Hrest as [|? ? Hb Hrest']; subst.
    repeat constructor; try assumption. exact (Forall_inv Hrest').
Qed.

Lemma processScope_keeps_other_parts_witness :
  nth_error (Js.split ":" "registry:library/catalog:*") 2
  = nth_error (Js.split ":" "registry:catalog:*") 2.
Proof.
  refine (proj2 (processScope_keeps_other_parts
                   (withScope "registry:catalog:*")
                   "registry:catalog:*" "registry:library/catalog:*" _ _) 2 _).
  - vm_compute; reflexivity.
  - vm_compute; reflexivity.
  - discriminate.
Defined.

(** X11.  The two defaulting rules agree on a bare repository name (one
    without ["/"] and [":"]): the router redirects its path of the form
    [/v2/name/op/ref] to [/v2/library/name/op/ref] on the host of the
    request (without a port 443), and
    the scope normaliser turns [repository:name:action] into
    [repository:library/name:action]. *)
Theorem bare_name_defaults (request : Request.t) (name op ref action : string) :
  Js.includes "/" name = false ->
  Js.includes ":" name = false ->
  Js.includes "/" op = false ->
  Js.includes "/" ref = false ->
  Js.includes ":" action = false ->
  pathOf request = "/v2/" ++ name ++ "/" ++ op ++ "/" ++ ref ->
  handleRequest request
  = Promise.Resolve
      (moved ("https://" ++ Url.drop_port "443" (hostOf request)
              ++ "/v2/library/" ++ name ++ "/" ++ op ++ "/" ++ ref))
  /\ processScope (withScope ("repository:" ++ name ++ ":" ++ action))
     = inr ("repository:library/" ++ name ++ ":" ++ action).
Proof.
  intros Hname Hname' Hop Href Haction Hpath.
  assert (Hsplit : Js.split "/" (pathOf request) = [""; "v2"; name; op; ref]).
  { rewrite Hpath.
    change ("/v2/" ++ name ++ "/" ++ op ++ "/" ++ ref)
      with (Js.join "/" [""; "v2"; name; op; ref]).
    apply split_join; [discriminate|]. now repeat constructor. }
  split.
  - rewrite handleRequest_dispatch. unfold selectMode.
    assert (Hlen : length (Js.split "/" (pathOf request)) = 5) by now rewrite Hsplit.
    destruct (five_pieces_not_fixed _ Hlen) as [-> [-> ->]].
    apply Nat.eqb_eq in Hlen. rewrite Hlen. simpl dispatch.
    unfold libraryPath. now rewrite Hsplit.
  - rewrite processScope_withScope. f_equal.
    apply normalizedScope_bare with (a := "repository") (b := name) (c := action);
      [|exact Hname].
    change ("repository:" ++ name ++ ":" ++ action)
      with (Js.join ":" ["repository"; name; action]).
    apply split_join; [discriminate|]. now repeat constructor.
Qed.

Lemma bare_name_defaults_witness :
  handleRequest (get "https://mirror.example/v2/nginx/blobs/sha256:0a1b")
  = Promise.Resolve
      (moved "https://mirror.example/v2/library/nginx/blobs/sha256:0a1b").
Proof.
  exact (proj1 (bare_name_defaults
                  (get "https://mirror.example/v2/nginx/blobs/sha256:0a1b")
                  "nginx" "blobs" "sha256:0a1b" "pull"
                  eq_refl eq_refl eq_refl eq_refl eq_refl eq_refl)).
Defined.

(** X12.  A repository name with a namespace ([ns/name]) is left alone by
    both rules: its path [/v2/ns/name/op/ref] goes to the upstream
    unchanged, and its scope [repository:ns/name:action] is returned as it
    is.  That holds for the namespace [library] too. *)
Theorem namespaced_name_untouched
  (request : Request.t) (ns name op ref action : string) :
  Js.includes "/" ns = false -> Js.includes ":" ns = false ->
  Js.includes "/" name = false -> Js.includes ":" name = false ->
  Js.includes "/" op = false ->
  Js.includes "/" ref = false ->
  Js.includes ":" action = false ->
  pathOf request = "/v2/" ++ ns ++ "/" ++ name ++ "/" ++ op ++ "/" ++ ref ->
  handleRequest request
  = fetch {| Request.url :=
               "https://registry-1.docker.io/v2/" ++ ns ++ "/" ++ name
               ++ "/" ++ op ++ "/" ++ ref;
             Request.method := Request.method request;
             Request.headers := Request.headers request;
             Request.redirect := manual;
             Request.body := None |}
  /\ processScope (withScope ("repository:" ++ ns ++ "/" ++ name ++ ":" ++ action))
     = inr ("repository:" ++ ns ++ "/" ++ name ++ ":" ++ action).
Proof.
  intros Hns Hns' Hname Hname' Hop Href Haction Hpath.
  assert (Hsplit : Js.split "/" (pathOf request) = [""; "v2"; ns; name; op; ref]).
  { rewrite Hpath.
    change ("/v2/" ++ ns ++ "/" ++ name ++ "/" ++ op ++ "/" ++ ref)
      with (Js.join "/" [""; "v2"; ns; name; op; ref]).
    apply split_join; [discriminate|]. now repeat constructor. }
  split.
  - rewrite handleRequest_dispatch. unfold selectMode.
    assert (Hlen : length (Js.split "/" (pathOf request)) = 6) by now rewrite Hsplit.
    destruct (String.eqb_spec (pathOf request) "/") as [E|_];
      [rewrite E in Hlen; discriminate|].
    destruct (String.eqb_spec (pathOf request) "/v2/") as [E|_];
      [rewrite E in Hlen; discriminate|].
    destruct (String.eqb_spec (pathOf request) "/auth/token") as [E|_];
      [rewrite E in Hlen; discriminate|].
    rewrite Hlen. simpl dispatch. rewrite getData_request. unfold proxyRequestOf.
    now rewrite Hpath.
  - rewrite processScope_withScope. f_equal.
    apply normalizedScope_namespaced with (b := ns ++ "/" ++ name).
    + change ("repository:" ++ ns ++ "/" ++ name ++ ":" ++ action)
        with ("repository:" ++ ns ++ "/" ++ (name ++ ":" ++ action)).
      rewrite (append_assoc_prefix ns "/" (name ++ ":" ++ action)).
      rewrite (append_assoc_prefix (ns ++ "/") name (":" ++ action)).
      rewrite <- (append_assoc_prefix ns "/" name).
      change ("repository:" ++ (ns ++ "/" ++ name) ++ ":" ++ action)
        with (Js.join ":" ["repository"; ns ++ "/" ++ name; action]).
      rewrite split_join; [reflexivity | discriminate |].
      repeat constructor; try assumption.
      rewrite includes_app, Hns'. simpl. exact Hname'.
    + rewrite includes_app. simpl. now rewrite orb_true_r.
Qed.

Lemma namespaced_name_untouched_witness :
  processScope (withScope "repository:library/nginx:pull,push")
  = inr "repository:library/nginx:pull,push".
Proof.
  exact (proj2 (namespaced_name_untouched
                  (get "https://mirror.example/v2/library/nginx/manifests/stable")
                  "library" "nginx" "manifests" "stable" "pull,push"
                  eq_refl eq_refl eq_refl eq_refl eq_refl eq_refl eq_refl eq_refl)).
Defined.

Lemma processScope_result_namespaced_witness :
  Js.includes "/" (nth 1 (Js.split ":" "repository:library/ubuntu:pull") "") = true.
Proof.
  refine (processScope_result_namespaced
            (withScope "repository:ubuntu:pull")
            "repository:library/ubuntu:pull" _ _); vm_compute; reflexivity.
Defined.

(** X14.  A client that writes the [library] namespace itself and one that
    leaves it out reach the token service with the same request. *)
Theorem explicit_and_bare_scope_agree (request request' : Request.t) (scope : string) :
  pathOf request = "/auth/token" ->
  pathOf request' = "/auth/token" ->
  Url.searchParams_get (urlOf request) "scope" = Some scope ->
  Url.searchParams_get (urlOf request') "scope" = Some (normalizedScope scope) ->
  processScope (urlOf request') = processScope (urlOf request)
  /\ handleRequest request' = handleRequest request.
Proof.
  intros Hpath Hpath' Hget Hget'. split.
  - now rewrite !processScope_unfold, Hget, Hget', normalizedScope_idempotent.
  - rewrite !handleRequest_dispatch, Hpath, Hpath'.
    change (selectMode "/auth/token") with TokenProxy. simpl dispatch.
    rewrite (getToken_scope _ _ Hget), (getToken_scope _ _ Hget').
    now rewrite normalizedScope_idempotent.
Qed.

Lemma explicit_and_bare_scope_agree_witness :
  handleRequest
    (get "https://mirror.example/auth/token?scope=repository%3Alibrary%2Fnginx%3Apull")
  = handleRequest (get "https://mirror.example/auth/token?scope=repository%3Anginx%3Apull").
Proof.
  refine (proj2 (explicit_and_bare_scope_agree
                   (get "https://mirror.example/auth/token?scope=repository%3Anginx%3Apull")
                   (get "https://mirror.example/auth/token?scope=repository%3Alibrary%2Fnginx%3Apull")
                   "repository:nginx:pull" _ _ _ _)); vm_compute; reflexivity.
Defined.

(** X15.  Of several [scope] parameters only the first counts: whatever
    the other parameters of a request to the token path are, the token
    service is asked for the normalisation of the first [scope] alone. *)
Theorem first_scope_only (request : Request.t)
  (before after : list (string * string)) (first : string) :
  pathOf request = "/auth/token" ->
  Url.searchParams (urlOf request) = (before ++ ("scope", first) :: after)%list ->
  (forall p, In p before -> fst p <> "scope") ->
  handleRequest request = fetch (tokenRequest (normalizedScope first))
  /\ Url.searchParams (urlOf (tokenRequest (normalizedScope first)))
     = [("service", "registry.docker.io"); ("scope", normalizedScope first)].
Proof.
  intros Hpath Hparams Hbefore. split.
  - rewrite handleRequest_dispatch, Hpath.
    change (selectMode "/auth/token") with TokenProxy.
    apply getToken_scope. unfold Url.searchParams_get. rewrite Hparams.
    now apply params_get_first.
  - unfold urlOf. rewrite tokenRequest_URL. unfold Url.searchParams.
    cbn [Url.query]. apply urlencoded_parse_serialize.
Qed.

Lemma first_scope_only_witness :
  handleRequest
    (get "http://mirror.example/auth/token?service=x&scope=repository:a:pull&scope=repository%3Ab%3Apull")
  = fetch (tokenRequest "repository:library/a:pull").
Proof.
  refine (proj1 (first_scope_only
                   (get "http://mirror.example/auth/token?service=x&scope=repository:a:pull&scope=repository%3Ab%3Apull")
                   [("service", "x")] [("scope", "repository:b:pull")]
                   "repository:a:pull" _ _ _)).
  - vm_compute; reflexivity.
  - vm_compute; reflexivity.
  - intros p [<-|[]]. discriminate.
Defined.
